(** * MCP_Client: the tool catalog of [ap.py]

    A shallow embedding of the weather, GitHub and Indian Rail tools of
    [src/ap.py] and of the three HTTP helpers they call, with the
    properties the specification states about them.

    Python values are modelled by the type [json] (what [response.json()]
    can produce), the dynamic operations the tools perform on them
    ([in], [x[k]], [x.get(k, d)], iteration, slicing, [len], truth value,
    [str]) by functions into [outcome], which is either a value or the
    exception Python raises.  The network is an oracle [net]; the monad [M]
    threads the list of requests sent so far and stops at the first
    exception. *)

From Stdlib Require Import ZArith List String Ascii Bool Lia DecimalString.
Import ListNotations.
Open Scope string_scope.

(* ================================================================= *)
(** ** Strings *)

(** A Python [str] is a [string]: one [ascii] per character, for the
    characters up to code point 255. *)

Definition nl : string := String (ascii_of_nat 10) EmptyString.
Definition dquote : ascii := ascii_of_nat 34.
Definition squote : ascii := ascii_of_nat 39.
Definition backslash : ascii := ascii_of_nat 92.

(** [sep.join(parts)] on a list of [str]. *)
Fixpoint join (sep : string) (parts : list string) : string :=
  match parts with
  | [] => EmptyString
  | [p] => p
  | p :: rest => p ++ sep ++ join sep rest
  end.

(** [str(n)] for an [int]. *)
Definition str_of_int (n : Z) : string := NilZero.string_of_int (Z.to_int n).

(** [s[:n]] on a [str]. *)
Fixpoint take (n : nat) (s : string) : string :=
  match n, s with
  | S m, String c rest => String c (take m rest)
  | _, _ => EmptyString
  end.

(** [c in s] for a single character. *)
Fixpoint has_char (c : ascii) (s : string) : bool :=
  match s with
  | EmptyString => false
  | String d rest => Ascii.eqb c d || has_char c rest
  end.

(** [sub in s] on two [str]: [sub] occurs in [s] as a substring. *)
Fixpoint is_substring (sub s : string) : bool :=
  String.prefix sub s ||
  match s with
  | EmptyString => false
  | String _ rest => is_substring sub rest
  end.

(** The case maps of ASCII text: the letters [a]-[z] and [A]-[Z] are
    mapped and every other character is kept.  On a string of ASCII
    characters this is what [str.upper] and [str.lower] give. *)
Definition upper_char (c : ascii) : ascii :=
  let n := nat_of_ascii c in
  if (97 <=? n)%nat && (n <=? 122)%nat then ascii_of_nat (n - 32) else c.

Definition lower_char (c : ascii) : ascii :=
  let n := nat_of_ascii c in
  if (65 <=? n)%nat && (n <=? 90)%nat then ascii_of_nat (n + 32) else c.

Fixpoint ascii_upper (s : string) : string :=
  match s with
  | EmptyString => EmptyString
  | String c rest => String (upper_char c) (ascii_upper rest)
  end.

Fixpoint ascii_lower (s : string) : string :=
  match s with
  | EmptyString => EmptyString
  | String c rest => String (lower_char c) (ascii_lower rest)
  end.

(** The string holds ASCII characters only. *)
Fixpoint is_ascii (s : string) : bool :=
  match s with
  | EmptyString => true
  | String c rest => (nat_of_ascii c <? 128)%nat && is_ascii rest
  end.

Definition hex_digit (n : nat) : ascii :=
  if (n <? 10)%nat then ascii_of_nat (48 + n) else ascii_of_nat (87 + n).

(** One character of [repr(s)] for a [str], [q] being the quote chosen.
    The characters that are not printable (below 32, from 127 to 160, and
    173) are written as [\xNN]. *)
Definition repr_char (q c : ascii) : string :=
  let n := nat_of_ascii c in
  if Ascii.eqb c q || Ascii.eqb c backslash then String backslash (String c EmptyString)
  else if (n =? 9)%nat then String backslash "t"
  else if (n =? 10)%nat then String backslash "n"
  else if (n =? 13)%nat then String backslash "r"
  else if (n <? 32)%nat || ((127 <=? n)%nat && (n <=? 160)%nat) || (n =? 173)%nat then
    String backslash (String "x" (String (hex_digit (n / 16)) (String (hex_digit (n mod 16)) EmptyString)))
  else String c EmptyString.

Fixpoint repr_chars (q : ascii) (s : string) : string :=
  match s with
  | EmptyString => EmptyString
  | String c rest => repr_char q c ++ repr_chars q rest
  end.

(** [repr(s)]: single quotes, unless [s] holds a single quote and no
    double quote. *)
Definition repr_str (s : string) : string :=
  let q := if has_char squote s && negb (has_char dquote s) then dquote else squote in
  String q (repr_chars q s ++ String q EmptyString).

(* ================================================================= *)
(** ** Python values *)

(** What [response.json()] returns.  A [float] is carried by the text
    [repr] gives for it (["0.5"], ["200.0"], ["nan"]); a [dict] keeps its
    keys in insertion order and [lookup] takes the first binding of a key. *)
#[local] Unset Elimination Schemes.
Inductive json : Type :=
| JNone
| JBool (b : bool)
| JInt (n : Z)
| JFloat (r : string)
| JStr (s : string)
| JList (items : list json)
| JDict (fields : list (string * json)).
#[local] Set Elimination Schemes.

Fixpoint lookup (k : string) (fields : list (string * json)) : option json :=
  match fields with
  | [] => None
  | (k', v) :: rest => if String.eqb k k' then Some v else lookup k rest
  end.

(** [repr(v)]. *)
Fixpoint py_repr (v : json) : string :=
  match v with
  | JNone => "None"
  | JBool true => "True"
  | JBool false => "False"
  | JInt n => str_of_int n
  | JFloat r => r
  | JStr s => repr_str s
  | JList items => "[" ++ join ", " (map py_repr items) ++ "]"
  | JDict fields =>
      "{" ++ join ", " (map (fun kv => repr_str (fst kv) ++ ": " ++ py_repr (snd kv)) fields) ++ "}"
  end.

(** [str(v)], which is what a replacement field [{v}] of an f-string
    inserts. *)
Definition py_str (v : json) : string :=
  match v with
  | JStr s => s
  | _ => py_repr v
  end.

(** Truth value: [None], [False], zero, and the empty string, list and
    dict are false. *)
Definition truthy (v : json) : bool :=
  match v with
  | JNone => false
  | JBool b => b
  | JInt n => negb (n =? 0)%Z
  | JFloat r => negb (String.eqb r "0.0" || String.eqb r "-0.0")
  | JStr s => negb (String.eqb s EmptyString)
  | JList items => match items with [] => false | _ => true end
  | JDict fields => match fields with [] => false | _ => true end
  end.

(** [v == n] for an [int] literal [n] other than 0 and 1. *)
Definition eq_int (v : json) (n : Z) : bool :=
  match v with
  | JInt m => (m =? n)%Z
  | JFloat r => String.eqb r (str_of_int n ++ ".0")
  | _ => false
  end.

Definition is_str (v : json) (s : string) : bool :=
  match v with
  | JStr t => String.eqb t s
  | _ => false
  end.

(** [isinstance(v, list)]. *)
Definition isinstance_list (v : json) : bool :=
  match v with
  | JList _ => true
  | _ => false
  end.

(* ================================================================= *)
(** ** Exceptions *)

Inductive fault : Type :=
| KeyError (key : string)
| TypeError
| AttributeError.

Inductive outcome (A : Type) : Type :=
| Ret (a : A)
| Raise (e : fault).
Arguments Ret {A} a.
Arguments Raise {A} e.

Definition obind {A B : Type} (o : outcome A) (k : A -> outcome B) : outcome B :=
  match o with
  | Ret a => k a
  | Raise e => Raise e
  end.

Declare Scope outcome_scope.
Delimit Scope outcome_scope with outcome.
Notation "'let!' x ':=' c 'in' k" := (obind c (fun x => k))
  (at level 10, x name, c at level 100, k at level 200) : outcome_scope.
Open Scope outcome_scope.

(** A loop or comprehension whose body may raise: the elements are
    handled in order and the first exception ends it. *)
Fixpoint for_each {A B : Type} (body : A -> outcome B) (l : list A) : outcome (list B) :=
  match l with
  | [] => Ret []
  | x :: rest =>
      let! y := body x in
      let! ys := for_each body rest in
      Ret (y :: ys)
  end.

(** [k in v]: key of a dict, element of a list, substring of a str. *)
Definition py_contains (k : string) (v : json) : outcome bool :=
  match v with
  | JDict fields => Ret (match lookup k fields with Some _ => true | None => false end)
  | JList items => Ret (existsb (fun x => is_str x k) items)
  | JStr s => Ret (is_substring k s)
  | _ => Raise TypeError
  end.

(** [v[k]] for a string key [k]. *)
Definition py_getitem (v : json) (k : string) : outcome json :=
  match v with
  | JDict fields =>
      match lookup k fields with
      | Some x => Ret x
      | None => Raise (KeyError k)
      end
  | _ => Raise TypeError
  end.

(** [v.get(k, dflt)]: only a dict has the method. *)
Definition field (fields : list (string * json)) (k : string) (dflt : json) : json :=
  match lookup k fields with
  | Some x => x
  | None => dflt
  end.

Definition py_get (v : json) (k : string) (dflt : json) : outcome json :=
  match v with
  | JDict fields => Ret (field fields k dflt)
  | _ => Raise AttributeError
  end.

Definition chars_of (s : string) : list json :=
  map (fun c => JStr (String c EmptyString)) (list_ascii_of_string s).

(** The elements [for x in v] visits. *)
Definition py_iter (v : json) : outcome (list json) :=
  match v with
  | JList items => Ret items
  | JDict fields => Ret (map (fun kv => JStr (fst kv)) fields)
  | JStr s => Ret (chars_of s)
  | _ => Raise TypeError
  end.

(** [v[:n]].  Slicing a dict raises ([TypeError] before Python 3.12,
    [KeyError] from 3.12 on; the model takes the former). *)
Definition py_slice (v : json) (n : nat) : outcome json :=
  match v with
  | JList items => Ret (JList (firstn n items))
  | JStr s => Ret (JStr (take n s))
  | _ => Raise TypeError
  end.

(** [len(v)]. *)
Definition py_len (v : json) : outcome nat :=
  match v with
  | JList items => Ret (List.length items)
  | JDict fields => Ret (List.length fields)
  | JStr s => Ret (String.length s)
  | _ => Raise TypeError
  end.

(** [sep.join(l)] on a list of values: every one must be a [str]. *)
Definition py_join (sep : string) (l : list json) : outcome string :=
  let! parts := for_each (fun v => match v with JStr s => Ret s | _ => Raise TypeError end) l in
  Ret (join sep parts).

(** A loop that appends to a string ([result += ...]). *)
Fixpoint for_acc {A : Type} (body : string -> A -> outcome string) (acc : string) (l : list A)
  : outcome string :=
  match l with
  | [] => Ret acc
  | x :: rest =>
      let! acc' := body acc x in
      for_acc body acc' rest
  end.

(* ================================================================= *)
(** ** The network and the monad of the tools *)

(** What [client.get] is called with.  A [float] such as the timeout is
    carried by its text. *)
Record request : Type := {
  url : string;
  headers : list (string * string);
  follow_redirects : bool;
  timeout : string
}.

(** A tool runs from the requests sent so far to the requests sent when it
    ends and its result or exception. *)
Definition M (A : Type) : Type := list request -> list request * outcome A.

Definition ret {A : Type} (a : A) : M A := fun sent => (sent, Ret a).

Definition bind {A B : Type} (m : M A) (k : A -> M B) : M B :=
  fun sent =>
    match m sent with
    | (sent', Ret a) => k a sent'
    | (sent', Raise e) => (sent', Raise e)
    end.

Definition lift {A : Type} (o : outcome A) : M A := fun sent => (sent, o).

Declare Scope tool_scope.
Delimit Scope tool_scope with tool.
Notation "x <- m ;; k" := (bind m (fun x => k))
  (at level 61, m at next level, right associativity) : tool_scope.
Open Scope tool_scope.

(* ----------------------------------------------------------------- *)
(** *** Constants *)

Definition NWS_API_BASE : string := "https://api.weather.gov".
Definition GITHUB_API_BASE : string := "https://api.github.com".
Definition USER_AGENT : string := "weather-github-app/1.0".
Definition INDIAN_RAIL_BASE_URL : string := "https://indianrailapi.com/api/v2".

(** Truth value of what [os.getenv] returned: [None] and the empty string
    are false. *)
Definition is_set (v : option string) : bool :=
  match v with
  | Some s => negb (String.eqb s EmptyString)
  | None => false
  end.

Definition env_str (v : option string) : string :=
  match v with
  | Some s => s
  | None => "None"
  end.

Definition separator : string := nl ++ "---" ++ nl.

(** The degree sign of the forecast text (code point 176). *)
Definition degree : string := String (ascii_of_nat 176) EmptyString.

(* ================================================================= *)
(** ** The tools *)

Section Catalog.

(** [str.upper], a builtin of the Python runtime: its case mapping is that
    of the Unicode character database, which is no code of this repository.
    The tools are modelled for whatever function it is. *)
Variable upper : string -> string.

(** The two values read from the environment when the module is loaded. *)
Variable INDIAN_RAIL_API_KEY : option string.
Variable GITHUB_TOKEN : option string.

(** The upstream: what [client.get(...)], [raise_for_status()] and
    [response.json()] give for a request, after the requests sent before
    it: the parsed body, or the text of the exception raised. *)
Variable net : list request -> request -> string + json.

Definition send (r : request) : M (string + json) :=
  fun sent => ((sent ++ [r])%list, Ret (net sent r)).

(* ----------------------------------------------------------------- *)
(** *** HTTP helpers *)

(** The log line written on failure has no effect on the result and is
    left out.  [get_forecast] passes a value of the upstream as [url]:
    when it is not a [str], [client.get] raises inside the [try] before
    anything is sent. *)
Definition make_nws_request (url : json) : M json :=
  let headers := [("User-Agent", USER_AGENT); ("Accept", "application/geo+json")] in
  match url with
  | JStr u =>
      response <- send {| url := u; headers := headers;
                          follow_redirects := false; timeout := "30.0" |} ;;
      match response with
      | inr body => ret body
      | inl _ => ret JNone
      end
  | _ => ret JNone
  end.

Definition make_github_request (url : string) : M json :=
  let headers := [("User-Agent", USER_AGENT); ("Accept", "application/vnd.github.v3+json")] in
  let headers :=
    if is_set GITHUB_TOKEN
    then List.app headers [("Authorization", "token " ++ env_str GITHUB_TOKEN)]
    else headers in
  response <- send {| url := url; headers := headers;
                      follow_redirects := false; timeout := "30.0" |} ;;
  match response with
  | inr body => ret body
  | inl _ => ret JNone
  end.

Definition fetch_data (url : string) : M json :=
  response <- send {| url := url; headers := [];
                      follow_redirects := true; timeout := "30.0" |} ;;
  match response with
  | inr body => ret body
  | inl e => ret (JDict [("error", JStr e)])
  end.

(* ----------------------------------------------------------------- *)
(** *** Weather tools *)

Definition format_alert (feature : json) : outcome string :=
  let! props := py_getitem feature "properties" in
  let! event := py_get props "event" (JStr "Unknown") in
  let! areaDesc := py_get props "areaDesc" (JStr "Unknown") in
  let! severity := py_get props "severity" (JStr "Unknown") in
  let! description := py_get props "description" (JStr "No description available") in
  let! instruction := py_get props "instruction" (JStr "No specific instructions provided") in
  Ret (nl ++ "Event: " ++ py_str event ++ nl
          ++ "Area: " ++ py_str areaDesc ++ nl
          ++ "Severity: " ++ py_str severity ++ nl
          ++ "Description: " ++ py_str description ++ nl
          ++ "Instructions: " ++ py_str instruction ++ nl).

(** [not data or key not in data] *)
Definition missing (key : string) (data : json) : outcome bool :=
  if negb (truthy data) then Ret true
  else let! present := py_contains key data in Ret (negb present).

Definition get_alerts (state : string) : M string :=
  let url := NWS_API_BASE ++ "/alerts/active/area/" ++ state in
  data <- make_nws_request (JStr url) ;;
  lift (
    let! absent := missing "features" data in
    if absent then Ret "Unable to fetch alerts or no alerts found." else
    let! features := py_getitem data "features" in
    if negb (truthy features) then Ret "No active alerts for this state." else
    let! features := py_iter features in
    let! alerts := for_each format_alert features in
    Ret (join separator alerts)).

(** The body of the loop of [get_forecast]. *)
Definition forecast (period : json) : outcome string :=
  let! name := py_getitem period "name" in
  let! temperature := py_getitem period "temperature" in
  let! temperatureUnit := py_getitem period "temperatureUnit" in
  let! windSpeed := py_getitem period "windSpeed" in
  let! windDirection := py_getitem period "windDirection" in
  let! detailedForecast := py_getitem period "detailedForecast" in
  Ret (nl ++ py_str name ++ ":" ++ nl
          ++ "Temperature: " ++ py_str temperature ++ degree ++ py_str temperatureUnit ++ nl
          ++ "Wind: " ++ py_str windSpeed ++ " " ++ py_str windDirection ++ nl
          ++ "Forecast: " ++ py_str detailedForecast ++ nl).

(** [latitude] and [longitude] are floats, given by their text. *)
Definition get_forecast (latitude longitude : string) : M string :=
  let points_url := NWS_API_BASE ++ "/points/" ++ latitude ++ "," ++ longitude in
  points_data <- make_nws_request (JStr points_url) ;;
  if negb (truthy points_data) then ret "Unable to fetch forecast data for this location." else
  forecast_url <- lift (let! properties := py_getitem points_data "properties" in
                        py_getitem properties "forecast") ;;
  forecast_data <- make_nws_request forecast_url ;;
  if negb (truthy forecast_data) then ret "Unable to fetch detailed forecast." else
  lift (
    let! properties := py_getitem forecast_data "properties" in
    let! periods := py_getitem properties "periods" in
    let! periods := py_slice periods 5 in
    let! periods := py_iter periods in
    let! forecasts := for_each forecast periods in
    Ret (join separator forecasts)).

(* ----------------------------------------------------------------- *)
(** *** GitHub read-only tools *)

(** The text [get_github_user] returns for a response. *)
Definition user_info (data : json) : outcome string :=
  let! login := py_get data "login" (JStr "N/A") in
  let! name := py_get data "name" (JStr "N/A") in
  let! bio := py_get data "bio" (JStr "No bio available") in
  let! public_repos := py_get data "public_repos" (JInt 0) in
  let! followers := py_get data "followers" (JInt 0) in
  let! following := py_get data "following" (JInt 0) in
  let! location := py_get data "location" (JStr "N/A") in
  let! company := py_get data "company" (JStr "N/A") in
  let! blog := py_get data "blog" (JStr "N/A") in
  let! created_at := py_get data "created_at" (JStr "N/A") in
  Ret (nl ++ "Username: " ++ py_str login ++ nl
          ++ "Name: " ++ py_str name ++ nl
          ++ "Bio: " ++ py_str bio ++ nl
          ++ "Public Repos: " ++ py_str public_repos ++ nl
          ++ "Followers: " ++ py_str followers ++ nl
          ++ "Following: " ++ py_str following ++ nl
          ++ "Location: " ++ py_str location ++ nl
          ++ "Company: " ++ py_str company ++ nl
          ++ "Blog: " ++ py_str blog ++ nl
          ++ "Created: " ++ py_str created_at ++ nl).

Definition get_github_user (username : string) : M string :=
  let url := GITHUB_API_BASE ++ "/users/" ++ username in
  data <- make_github_request url ;;
  if negb (truthy data) then ret ("Unable to fetch user information for " ++ username) else
  lift (user_info data).

(** The body of the loop of [get_github_repos]. *)
Definition repo_info (repo : json) : outcome string :=
  let! name := py_get repo "name" (JStr "N/A") in
  let! description := py_get repo "description" (JStr "No description") in
  let! language := py_get repo "language" (JStr "N/A") in
  let! stargazers_count := py_get repo "stargazers_count" (JInt 0) in
  let! forks_count := py_get repo "forks_count" (JInt 0) in
  let! updated_at := py_get repo "updated_at" (JStr "N/A") in
  let! html_url := py_get repo "html_url" (JStr "N/A") in
  Ret (nl ++ "Name: " ++ py_str name ++ nl
          ++ "Description: " ++ py_str description ++ nl
          ++ "Language: " ++ py_str language ++ nl
          ++ "Stars: " ++ py_str stargazers_count ++ nl
          ++ "Forks: " ++ py_str forks_count ++ nl
          ++ "Updated: " ++ py_str updated_at ++ nl
          ++ "URL: " ++ py_str html_url ++ nl).

Definition get_github_repos (username : string) (limit : Z) : M string :=
  let limit := Z.min limit 50 in
  let url := GITHUB_API_BASE ++ "/users/" ++ username
               ++ "/repos?sort=updated&per_page=" ++ str_of_int limit in
  data <- make_github_request url ;;
  if negb (truthy data) then ret ("Unable to fetch repositories for " ++ username) else
  lift (
    let! data := py_iter data in
    let! repos := for_each repo_info data in
    Ret (join separator repos)).

(** The text [get_github_repo_info] returns for a response. *)
Definition repository_info (data : json) : outcome string :=
  let! full_name := py_get data "full_name" (JStr "N/A") in
  let! description := py_get data "description" (JStr "No description") in
  let! language := py_get data "language" (JStr "N/A") in
  let! stargazers_count := py_get data "stargazers_count" (JInt 0) in
  let! forks_count := py_get data "forks_count" (JInt 0) in
  let! watchers_count := py_get data "watchers_count" (JInt 0) in
  let! open_issues_count := py_get data "open_issues_count" (JInt 0) in
  let! size := py_get data "size" (JInt 0) in
  let! default_branch := py_get data "default_branch" (JStr "N/A") in
  let! created_at := py_get data "created_at" (JStr "N/A") in
  let! updated_at := py_get data "updated_at" (JStr "N/A") in
  let! has_license := py_get data "license" JNone in
  let! license :=
    if truthy has_license
    then let! license := py_get data "license" (JDict []) in
         py_get license "name" (JStr "N/A")
    else Ret (JStr "N/A") in
  let! html_url := py_get data "html_url" (JStr "N/A") in
  let! clone_url := py_get data "clone_url" (JStr "N/A") in
  Ret (nl ++ "Repository: " ++ py_str full_name ++ nl
          ++ "Description: " ++ py_str description ++ nl
          ++ "Language: " ++ py_str language ++ nl
          ++ "Stars: " ++ py_str stargazers_count ++ nl
          ++ "Forks: " ++ py_str forks_count ++ nl
          ++ "Watchers: " ++ py_str watchers_count ++ nl
          ++ "Open Issues: " ++ py_str open_issues_count ++ nl
          ++ "Size: " ++ py_str size ++ " KB" ++ nl
          ++ "Default Branch: " ++ py_str default_branch ++ nl
          ++ "Created: " ++ py_str created_at ++ nl
          ++ "Updated: " ++ py_str updated_at ++ nl
          ++ "License: " ++ py_str license ++ nl
          ++ "URL: " ++ py_str html_url ++ nl
          ++ "Clone URL: " ++ py_str clone_url ++ nl).

Definition get_github_repo_info (owner repo : string) : M string :=
  let url := GITHUB_API_BASE ++ "/repos/" ++ owner ++ "/" ++ repo in
  data <- make_github_request url ;;
  if negb (truthy data)
  then ret ("Unable to fetch repository information for " ++ owner ++ "/" ++ repo) else
  lift (repository_info data).

(** The body of the loop of [search_github_repos]. *)
Definition search_repo_info (repo : json) : outcome string :=
  let! full_name := py_get repo "full_name" (JStr "N/A") in
  let! description := py_get repo "description" (JStr "No description") in
  let! language := py_get repo "language" (JStr "N/A") in
  let! stargazers_count := py_get repo "stargazers_count" (JInt 0) in
  let! forks_count := py_get repo "forks_count" (JInt 0) in
  let! html_url := py_get repo "html_url" (JStr "N/A") in
  Ret (nl ++ "Name: " ++ py_str full_name ++ nl
          ++ "Description: " ++ py_str description ++ nl
          ++ "Language: " ++ py_str language ++ nl
          ++ "Stars: " ++ py_str stargazers_count ++ nl
          ++ "Forks: " ++ py_str forks_count ++ nl
          ++ "URL: " ++ py_str html_url ++ nl).

Definition search_github_repos (query : string) (limit : Z) : M string :=
  let limit := Z.min limit 30 in
  let url := GITHUB_API_BASE ++ "/search/repositories?q=" ++ query
               ++ "&sort=stars&order=desc&per_page=" ++ str_of_int limit in
  data <- make_github_request url ;;
  lift (
    let! absent := missing "items" data in
    if absent then Ret ("Unable to search repositories for query: " ++ query) else
    let! items := py_getitem data "items" in
    let! items := py_iter items in
    let! repos := for_each search_repo_info items in
    Ret (join separator repos)).

(** The body of the loop of [get_github_issues]. *)
Definition issue_info (issue : json) : outcome string :=
  let! labels := py_get issue "labels" (JList []) in
  let! labels := py_iter labels in
  let! names := for_each (fun label => py_getitem label "name") labels in
  let! labels := py_join ", " names in
  let! number := py_get issue "number" (JStr "N/A") in
  let! title := py_get issue "title" (JStr "No title") in
  let! state := py_get issue "state" (JStr "N/A") in
  let! user := py_get issue "user" (JDict []) in
  let! login := py_get user "login" (JStr "N/A") in
  let labels := if negb (String.eqb labels EmptyString) then labels else "None" in
  let! created_at := py_get issue "created_at" (JStr "N/A") in
  let! html_url := py_get issue "html_url" (JStr "N/A") in
  Ret (nl ++ "#" ++ py_str number ++ ": " ++ py_str title ++ nl
          ++ "State: " ++ py_str state ++ nl
          ++ "Author: " ++ py_str login ++ nl
          ++ "Labels: " ++ labels ++ nl
          ++ "Created: " ++ py_str created_at ++ nl
          ++ "URL: " ++ py_str html_url ++ nl).

(** [state not in ["open", "closed", "all"]] *)
Definition allowed_state (state : string) : bool :=
  existsb (String.eqb state) ["open"; "closed"; "all"].

Definition get_github_issues (owner repo state : string) (limit : Z) : M string :=
  let limit := Z.min limit 30 in
  let state := if negb (allowed_state state) then "open" else state in
  let url := GITHUB_API_BASE ++ "/repos/" ++ owner ++ "/" ++ repo
               ++ "/issues?state=" ++ state ++ "&per_page=" ++ str_of_int limit in
  data <- make_github_request url ;;
  if negb (truthy data) then ret ("Unable to fetch issues for " ++ owner ++ "/" ++ repo) else
  lift (
    let! data := py_iter data in
    let! issues := for_each issue_info data in
    Ret (join separator issues)).

(** The body of the loop of [get_github_commits]. *)
Definition commit_info (commit : json) : outcome string :=
  let! sha := py_get commit "sha" (JStr "N/A") in
  let! sha := py_slice sha 8 in
  let! inner := py_get commit "commit" (JDict []) in
  let! message := py_get inner "message" (JStr "No message") in
  let! message := py_slice message 100 in
  let! inner := py_get commit "commit" (JDict []) in
  let! whole := py_get inner "message" (JStr EmptyString) in
  let! length := py_len whole in
  let ellipsis := if (100 <? length)%nat then "..." else EmptyString in
  let! inner := py_get commit "commit" (JDict []) in
  let! author := py_get inner "author" (JDict []) in
  let! name := py_get author "name" (JStr "N/A") in
  let! inner := py_get commit "commit" (JDict []) in
  let! author := py_get inner "author" (JDict []) in
  let! date := py_get author "date" (JStr "N/A") in
  let! html_url := py_get commit "html_url" (JStr "N/A") in
  Ret (nl ++ "SHA: " ++ py_str sha ++ nl
          ++ "Message: " ++ py_str message ++ ellipsis ++ nl
          ++ "Author: " ++ py_str name ++ nl
          ++ "Date: " ++ py_str date ++ nl
          ++ "URL: " ++ py_str html_url ++ nl).

Definition get_github_commits (owner repo : string) (limit : Z) : M string :=
  let limit := Z.min limit 20 in
  let url := GITHUB_API_BASE ++ "/repos/" ++ owner ++ "/" ++ repo
               ++ "/commits?per_page=" ++ str_of_int limit in
  data <- make_github_request url ;;
  if negb (truthy data) then ret ("Unable to fetch commits for " ++ owner ++ "/" ++ repo) else
  lift (
    let! data := py_iter data in
    let! commits := for_each commit_info data in
    Ret (join separator commits)).

(* ----------------------------------------------------------------- *)
(** *** Indian Rail tools *)

(** [data.get('ResponseCode') == 200 and data.get(key)] *)
Definition found (data : json) (key : string) : outcome bool :=
  let! code := py_get data "ResponseCode" JNone in
  if eq_int code 200
  then let! value := py_get data key JNone in Ret (truthy value)
  else Ret false.

(** One turn of the loop of [station_name_to_code]. *)
Definition station_lines (result : string) (station : json) : outcome string :=
  let! name := py_get station "StationName" (JStr "N/A") in
  let result := result ++ "Name: " ++ py_str name ++ nl in
  let! code := py_get station "StationCode" (JStr "N/A") in
  let result := result ++ "Code: " ++ py_str code ++ nl in
  let! state := py_get station "StateName" (JStr "N/A") in
  Ret (result ++ "State: " ++ py_str state ++ nl ++ "---" ++ nl).

Definition station_name_to_code (station_name : string) : M string :=
  if negb (is_set INDIAN_RAIL_API_KEY) then ret "Indian Rail API key not configured" else
  let station_name := upper station_name in
  let url := INDIAN_RAIL_BASE_URL ++ "/StationNameToCode/apikey/"
               ++ env_str INDIAN_RAIL_API_KEY ++ "/StationName/" ++ station_name in
  data <- fetch_data url ;;
  lift (
    let! failed := py_contains "error" data in
    if failed then
      let! error := py_getitem data "error" in
      Ret ("Error fetching station code: " ++ py_str error)
    else
    let! ok := found data "Station" in
    if ok then
      let! stations := py_getitem data "Station" in
      if isinstance_list stations && truthy stations then
        let result := "Station codes found:" ++ nl in
        let! stations := py_slice stations 5 in
        let! stations := py_iter stations in
        for_acc station_lines result stations
      else Ret ("No stations found for '" ++ station_name ++ "'")
    else Ret ("No stations found for '" ++ station_name ++ "'")).

(** One turn of the loop of [get_train_schedule_indian_rail]. *)
Definition route_lines (train_info : string) (station : json) : outcome string :=
  let! name := py_get station "StationName" (JStr "N/A") in
  let! code := py_get station "StationCode" (JStr "N/A") in
  let train_info :=
    train_info ++ "Station: " ++ py_str name ++ " (" ++ py_str code ++ ")" ++ nl in
  let! arrival := py_get station "ArrivalTime" (JStr "N/A") in
  let! departure := py_get station "DepartureTime" (JStr "N/A") in
  let train_info :=
    train_info ++ "Arrival: " ++ py_str arrival ++ " | Departure: " ++ py_str departure ++ nl in
  let! distance := py_get station "DistanceFromSource" (JStr "N/A") in
  Ret (train_info ++ "Distance: " ++ py_str distance ++ " km" ++ nl ++ "---" ++ nl).

(** The three lines [get_train_schedule_indian_rail] starts [train_info]
    with. *)
Definition train_heading (train_number : string) (data : json) : outcome string :=
  let train_info := "Train " ++ train_number ++ " Schedule:" ++ nl in
  let! name := py_get data "TrainName" (JStr "N/A") in
  let train_info := train_info ++ "Train Name: " ++ py_str name ++ nl in
  let! number := py_get data "TrainNumber" (JStr "N/A") in
  Ret (train_info ++ "Train Number: " ++ py_str number ++ nl ++ nl).

Definition get_train_schedule_indian_rail (train_number : string) : M string :=
  if negb (is_set INDIAN_RAIL_API_KEY) then ret "Indian Rail API key not configured" else
  let url := INDIAN_RAIL_BASE_URL ++ "/TrainSchedule/apikey/"
               ++ env_str INDIAN_RAIL_API_KEY ++ "/TrainNumber/" ++ train_number in
  data <- fetch_data url ;;
  lift (
    let! failed := py_contains "error" data in
    if failed then
      let! error := py_getitem data "error" in
      Ret ("Error fetching train schedule: " ++ py_str error)
    else
    let! ok := found data "Route" in
    if ok then
      let! train_info := train_heading train_number data in
      let! route := py_getitem data "Route" in
      if isinstance_list route then
        let train_info := train_info ++ "Schedule:" ++ nl in
        let! route := py_slice route 10 in
        let! route := py_iter route in
        for_acc route_lines train_info route
      else Ret train_info
    else Ret ("No schedule found for train " ++ train_number)).

(** One turn of the loop of [get_all_trains_on_station]. *)
Definition train_lines (result : string) (train : json) : outcome string :=
  let! name := py_get train "TrainName" (JStr "N/A") in
  let! number := py_get train "TrainNumber" (JStr "N/A") in
  let result := result ++ "Train: " ++ py_str name ++ " (" ++ py_str number ++ ")" ++ nl in
  let! arrival := py_get train "ArrivalTime" (JStr "N/A") in
  let! departure := py_get train "DepartureTime" (JStr "N/A") in
  let result :=
    result ++ "Arrival: " ++ py_str arrival ++ " | Departure: " ++ py_str departure ++ nl in
  let! source := py_get train "SourceStationName" (JStr "N/A") in
  let! destination := py_get train "DestinationStationName" (JStr "N/A") in
  Ret (result ++ "Source: " ++ py_str source ++ " | Destination: " ++ py_str destination
              ++ nl ++ "---" ++ nl).

Definition get_all_trains_on_station (station_code : string) : M string :=
  if negb (is_set INDIAN_RAIL_API_KEY) then ret "Indian Rail API key not configured" else
  let station_code := upper station_code in
  let url := INDIAN_RAIL_BASE_URL ++ "/AllTrainOnStation/apikey/"
               ++ env_str INDIAN_RAIL_API_KEY ++ "/StationCode/" ++ station_code in
  data <- fetch_data url ;;
  lift (
    let! failed := py_contains "error" data in
    if failed then
      let! error := py_getitem data "error" in
      Ret ("Error fetching trains for station: " ++ py_str error)
    else
    let! ok := found data "Trains" in
    if ok then
      let! trains := py_getitem data "Trains" in
      if truthy trains then
        let result := "Trains at station " ++ station_code ++ ":" ++ nl in
        let! trains := py_slice trains 15 in
        let! trains := py_iter trains in
        for_acc train_lines result trains
      else Ret ("No trains found for station " ++ station_code)
    else Ret ("No trains found for station " ++ station_code)).

End Catalog.

(* ================================================================= *)
(** ** The requests the helpers send *)

Definition nws_get (u : string) : request :=
  {| url := u;
     headers := [("User-Agent", USER_AGENT); ("Accept", "application/geo+json")];
     follow_redirects := false; timeout := "30.0" |}.

Definition github_get (token : option string) (u : string) : request :=
  {| url := u;
     headers :=
       if is_set token
       then [("User-Agent", USER_AGENT); ("Accept", "application/vnd.github.v3+json");
             ("Authorization", "token " ++ env_str token)]
       else [("User-Agent", USER_AGENT); ("Accept", "application/vnd.github.v3+json")];
     follow_redirects := false; timeout := "30.0" |}.

Definition rail_get (u : string) : request :=
  {| url := u; headers := []; follow_redirects := true; timeout := "30.0" |}.

(** What [make_nws_request] and [make_github_request] return for an
    answer of the upstream, and what [fetch_data] returns for it. *)
Definition body_or_none (answer : string + json) : json :=
  match answer with
  | inr body => body
  | inl _ => JNone
  end.

Definition body_or_error (answer : string + json) : json :=
  match answer with
  | inr body => body
  | inl e => JDict [("error", JStr e)]
  end.

(* ================================================================= *)
(** ** The list tools with a limit *)

Inductive list_tool : Type :=
| Repos (username : string)
| Search (query : string)
| Issues (owner repo state : string)
| Commits (owner repo : string).

Definition run_list_tool (token : option string) net (t : list_tool) (limit : Z) : M string :=
  match t with
  | Repos username => get_github_repos token net username limit
  | Search query => search_github_repos token net query limit
  | Issues owner repo state => get_github_issues token net owner repo state limit
  | Commits owner repo => get_github_commits token net owner repo limit
  end.

(** The documented maximum of the limit. *)
Definition cap (t : list_tool) : Z :=
  match t with
  | Repos _ => 50
  | Search _ => 30
  | Issues _ _ _ => 30
  | Commits _ _ => 20
  end.

(** The body of the loop that renders one item. *)
Definition entry (t : list_tool) : json -> outcome string :=
  match t with
  | Repos _ => repo_info
  | Search _ => search_repo_info
  | Issues _ _ _ => issue_info
  | Commits _ _ => commit_info
  end.

Definition list_url (t : list_tool) (limit : Z) : string :=
  match t with
  | Repos username =>
      GITHUB_API_BASE ++ "/users/" ++ username ++ "/repos?sort=updated&per_page="
        ++ str_of_int (Z.min limit 50)
  | Search query =>
      GITHUB_API_BASE ++ "/search/repositories?q=" ++ query
        ++ "&sort=stars&order=desc&per_page=" ++ str_of_int (Z.min limit 30)
  | Issues owner repo state =>
      GITHUB_API_BASE ++ "/repos/" ++ owner ++ "/" ++ repo ++ "/issues?state="
        ++ (if allowed_state state then state else "open")
        ++ "&per_page=" ++ str_of_int (Z.min limit 30)
  | Commits owner repo =>
      GITHUB_API_BASE ++ "/repos/" ++ owner ++ "/" ++ repo ++ "/commits?per_page="
        ++ str_of_int (Z.min limit 20)
  end.

(** The upstream returned the list [items]: as the body itself, or under
    ["items"] for a search. *)
Definition returned (t : list_tool) (data : json) (items : list json) : Prop :=
  match t with
  | Search _ => exists fields, data = JDict fields /\ lookup "items" fields = Some (JList items)
  | _ => data = JList items
  end.

(** What the tool returns when the list is empty. *)
Definition empty_text (t : list_tool) : string :=
  match t with
  | Repos username => "Unable to fetch repositories for " ++ username
  | Search _ => EmptyString
  | Issues owner repo _ => "Unable to fetch issues for " ++ owner ++ "/" ++ repo
  | Commits owner repo => "Unable to fetch commits for " ++ owner ++ "/" ++ repo
  end.

(* ================================================================= *)
(** ** Answers of the rail upstream *)

(** A successful answer of the rail upstream that carries the non-empty
    list [items] under [key]: no ["error"], response code 200. *)
Definition lists (fields : list (string * json)) (key : string) (items : list json) : Prop :=
  lookup "error" fields = None
  /\ eq_int (field fields "ResponseCode" JNone) 200 = true
  /\ lookup key fields = Some (JList items)
  /\ items <> [].

(* ================================================================= *)
(** ** A sample weather upstream *)

Definition sample_period (name : string) : json :=
  JDict [("name", JStr name); ("temperature", JInt 50); ("temperatureUnit", JStr "F");
         ("windSpeed", JStr "5 mph"); ("windDirection", JStr "N");
         ("detailedForecast", JStr "Clear.")].

Definition sample_periods : list json :=
  map sample_period ["Today"; "Tonight"; "Monday"; "Monday Night"; "Tuesday"; "Tuesday Night"].

(** Answers the first request with the grid point and the next ones with
    six forecast periods. *)
Definition sample_weather (sent : list request) (r : request) : string + json :=
  match sent with
  | [] => inr (JDict [("properties",
                       JDict [("forecast",
                               JStr "https://api.weather.gov/gridpoints/TOP/31,80/forecast")])])
  | _ => inr (JDict [("properties", JDict [("periods", JList sample_periods)])])
  end.

(* ================================================================= *)
(** ** The catalog as a whole *)

(** A call of one of the eleven tools. *)
Inductive call : Type :=
| GetAlerts (state : string)
| GetForecast (latitude longitude : string)
| GetGithubUser (username : string)
| GetGithubRepoInfo (owner repo : string)
| GithubList (t : list_tool) (limit : Z)
| StationNameToCode (station_name : string)
| GetTrainSchedule (train_number : string)
| GetAllTrainsOnStation (station_code : string).

Definition run (upper : string -> string) (key token : option string) net (c : call) : M string :=
  match c with
  | GetAlerts state => get_alerts net state
  | GetForecast latitude longitude => get_forecast net latitude longitude
  | GetGithubUser username => get_github_user token net username
  | GetGithubRepoInfo owner repo => get_github_repo_info token net owner repo
  | GithubList t limit => run_list_tool token net t limit
  | StationNameToCode station_name => station_name_to_code upper key net station_name
  | GetTrainSchedule train_number => get_train_schedule_indian_rail key net train_number
  | GetAllTrainsOnStation station_code => get_all_trains_on_station upper key net station_code
  end.

(** The first request of a call (the only one, but for [get_forecast];
    a rail tool sends it when the key is set). *)
Definition first_request (upper : string -> string) (key token : option string) (c : call)
  : request :=
  match c with
  | GetAlerts state => nws_get (NWS_API_BASE ++ "/alerts/active/area/" ++ state)
  | GetForecast latitude longitude =>
      nws_get (NWS_API_BASE ++ "/points/" ++ latitude ++ "," ++ longitude)
  | GetGithubUser username => github_get token (GITHUB_API_BASE ++ "/users/" ++ username)
  | GetGithubRepoInfo owner repo =>
      github_get token (GITHUB_API_BASE ++ "/repos/" ++ owner ++ "/" ++ repo)
  | GithubList t limit => github_get token (list_url t limit)
  | StationNameToCode station_name =>
      rail_get (INDIAN_RAIL_BASE_URL ++ "/StationNameToCode/apikey/"
                  ++ env_str key ++ "/StationName/" ++ upper station_name)
  | GetTrainSchedule train_number =>
      rail_get (INDIAN_RAIL_BASE_URL ++ "/TrainSchedule/apikey/"
                  ++ env_str key ++ "/TrainNumber/" ++ train_number)
  | GetAllTrainsOnStation station_code =>
      rail_get (INDIAN_RAIL_BASE_URL ++ "/AllTrainOnStation/apikey/"
                  ++ env_str key ++ "/StationCode/" ++ upper station_code)
  end.

Definition is_rail (c : call) : bool :=
  match c with
  | StationNameToCode _ | GetTrainSchedule _ | GetAllTrainsOnStation _ => true
  | _ => false
  end.

(** What the helper of the call returns for the answer to its first
    request. *)
Definition first_data (upper : string -> string) (key token : option string) net (c : call)
    (sent : list request) : json :=
  let answer := net sent (first_request upper key token c) in
  if is_rail c then body_or_error answer else body_or_none answer.

(** The text a call returns when its helper has no data: fixed for the
    weather and GitHub tools, ending in the error text [e] for the rail
    tools. *)
Definition absence_text (c : call) (e : string) : string :=
  match c with
  | GetAlerts _ => "Unable to fetch alerts or no alerts found."
  | GetForecast _ _ => "Unable to fetch forecast data for this location."
  | GetGithubUser username => "Unable to fetch user information for " ++ username
  | GetGithubRepoInfo owner repo =>
      "Unable to fetch repository information for " ++ owner ++ "/" ++ repo
  | GithubList (Repos username) _ => "Unable to fetch repositories for " ++ username
  | GithubList (Search query) _ => "Unable to search repositories for query: " ++ query
  | GithubList (Issues owner repo _) _ => "Unable to fetch issues for " ++ owner ++ "/" ++ repo
  | GithubList (Commits owner repo) _ => "Unable to fetch commits for " ++ owner ++ "/" ++ repo
  | StationNameToCode _ => "Error fetching station code: " ++ e
  | GetTrainSchedule _ => "Error fetching train schedule: " ++ e
  | GetAllTrainsOnStation _ => "Error fetching trains for station: " ++ e
  end.

(** The absent-data value of the helper of the call: [None], or the
    dict [{"error": e}] of [fetch_data]. *)
Definition absent_data (c : call) (e : string) : json :=
  if is_rail c then JDict [("error", JStr e)] else JNone.

(* ================================================================= *)
(** ** Optional fields and their placeholders *)


(** The field a path of keys leads to is absent from a record: the record,
    or a dict on the way, lacks the next key. *)
Fixpoint absent (path : list string) (record : json) : bool :=
  match path with
  | [] => false
  | k :: rest =>
      match record with
      | JDict fields =>
          match lookup k fields with
          | None => true
          | Some inner => absent rest inner
          end
      | _ => false
      end
  end.




(* ================================================================= *)
(** ** Sample GitHub records *)




(* ================================================================= *)
(** ** Answers of the shape a tool reads *)

Definition is_dict (v : json) : bool :=
  match v with
  | JDict _ => true
  | _ => false
  end.

(** A list all of whose items pass [ok]. *)
Definition list_of (ok : json -> bool) (v : json) : bool :=
  match v with
  | JList items => forallb ok items
  | _ => false
  end.

(** A list whose first [n] items are dicts; what is not a list passes. *)
Definition dicts_at_front (n : nat) (v : json) : bool :=
  match v with
  | JList items => forallb is_dict (firstn n items)
  | _ => true
  end.

(** An optional field: absent, or passing [ok]. *)
Definition absent_or (ok : json -> bool) (v : option json) : bool :=
  match v with
  | None => true
  | Some x => ok x
  end.

Definition falsy_or (ok : json -> bool) (v : json) : bool :=
  negb (truthy v) || ok v.

(** What can be sliced and measured: a str or a list. *)
Definition text_like (v : json) : bool :=
  match v with
  | JStr _ | JList _ => true
  | _ => false
  end.

(** A dict whose fields pass [ok]. *)
Definition dict_with (ok : list (string * json) -> bool) (v : json) : bool :=
  match v with
  | JDict fields => ok fields
  | _ => false
  end.

Definition has_key (k : string) (fields : list (string * json)) : bool :=
  match lookup k fields with
  | Some _ => true
  | None => false
  end.

(** An alert feature: a dict with a dict under ["properties"]. *)
Definition alert_shaped : json -> bool :=
  dict_with (fun fields =>
    match lookup "properties" fields with
    | Some props => is_dict props
    | None => false
    end).

(** A forecast period: a dict with the six keys the loop indexes. *)
Definition period_shaped : json -> bool :=
  dict_with (fun fields =>
    forallb (fun k => has_key k fields)
      ["name"; "temperature"; "temperatureUnit"; "windSpeed"; "windDirection";
       "detailedForecast"]).

(** A label: a dict with a str under ["name"]. *)
Definition label_shaped : json -> bool :=
  dict_with (fun fields =>
    match lookup "name" fields with
    | Some (JStr _) => true
    | _ => false
    end).

Definition issue_shaped : json -> bool :=
  dict_with (fun fields =>
    absent_or (list_of label_shaped) (lookup "labels" fields)
    && absent_or is_dict (lookup "user" fields)).

Definition commit_shaped : json -> bool :=
  dict_with (fun fields =>
    absent_or text_like (lookup "sha" fields)
    && absent_or
         (dict_with (fun inner =>
            absent_or text_like (lookup "message" inner)
            && absent_or is_dict (lookup "author" inner)))
         (lookup "commit" fields)).

(** The data of the first request has the shape the call reads: no data
    (for the weather and GitHub tools), or the containers the tool indexes,
    iterates and calls [get] on, with the keys it indexes directly; a rail
    tool reads a dict, which the value [{"error": e}] is. *)
Definition shaped (c : call) (data : json) : bool :=
  match c with
  | GetAlerts _ =>
      falsy_or (dict_with (fun fields =>
        absent_or (falsy_or (list_of alert_shaped)) (lookup "features" fields))) data
  | GetForecast _ _ =>
      falsy_or (dict_with (fun fields =>
        match lookup "properties" fields with
        | Some props => dict_with (has_key "forecast") props
        | None => false
        end)) data
  | GetGithubUser _ => falsy_or is_dict data
  | GetGithubRepoInfo _ _ =>
      falsy_or (dict_with (fun fields =>
        absent_or (falsy_or is_dict) (lookup "license" fields))) data
  | GithubList (Repos _) _ => falsy_or (list_of is_dict) data
  | GithubList (Search _) _ =>
      falsy_or (dict_with (fun fields =>
        absent_or (list_of is_dict) (lookup "items" fields))) data
  | GithubList (Issues _ _ _) _ => falsy_or (list_of issue_shaped) data
  | GithubList (Commits _ _) _ => falsy_or (list_of commit_shaped) data
  | StationNameToCode _ =>
      dict_with (fun fields => absent_or (dicts_at_front 5) (lookup "Station" fields)) data
  | GetTrainSchedule _ =>
      dict_with (fun fields => absent_or (dicts_at_front 10) (lookup "Route" fields)) data
  | GetAllTrainsOnStation _ =>
      dict_with (fun fields =>
        absent_or (falsy_or (fun trains => isinstance_list trains && dicts_at_front 15 trains))
          (lookup "Trains" fields)) data
  end.

(** The data of the second request of [get_forecast]: none, or a dict
    with a dict under ["properties"] with a list under ["periods"] whose
    first five items are periods. *)
Definition forecast_shaped : json -> bool :=
  falsy_or (dict_with (fun fields =>
    match lookup "properties" fields with
    | Some props =>
        dict_with (fun inner =>
          match lookup "periods" inner with
          | Some (JList periods) => forallb period_shaped (firstn 5 periods)
          | _ => false
          end) props
    | None => false
    end)).

(** [get_forecast] is the one tool that sends a second request. *)
Definition two_requests (c : call) : bool :=
  match c with
  | GetForecast _ _ => true
  | _ => false
  end.

(* ================================================================= *)
(** ** Upstreams and requests, for the properties of the whole catalog *)

(** The upstream that gives the same answer to every request. *)
Definition answered (answer : string + json) : list request -> request -> string + json :=
  fun _ _ => answer.

(** The request carries a header of that name. *)
Definition has_header (name : string) (r : request) : bool :=
  existsb (fun h => String.eqb (fst h) name) (headers r).

Definition is_github (c : call) : bool :=
  match c with
  | GetGithubUser _ | GetGithubRepoInfo _ _ | GithubList _ _ => true
  | _ => false
  end.

(** The text a rail tool returns when the answer holds nothing to list. *)
Definition nothing_found (upper : string -> string) (c : call) : string :=
  match c with
  | StationNameToCode station_name => "No stations found for '" ++ upper station_name ++ "'"
  | GetTrainSchedule train_number => "No schedule found for train " ++ train_number
  | GetAllTrainsOnStation station_code => "No trains found for station " ++ upper station_code
  | _ => EmptyString
  end.

(** The key of the answer a rail tool lists. *)
Definition listed_key (c : call) : string :=
  match c with
  | StationNameToCode _ => "Station"
  | GetTrainSchedule _ => "Route"
  | GetAllTrainsOnStation _ => "Trains"
  | _ => EmptyString
  end.

(** The prefix of the text a rail tool returns for an answer with an
    ["error"]. *)
Definition error_prefix (c : call) : string :=
  match c with
  | StationNameToCode _ => "Error fetching station code: "
  | GetTrainSchedule _ => "Error fetching train schedule: "
  | GetAllTrainsOnStation _ => "Error fetching trains for station: "
  | _ => EmptyString
  end.

(** The URL of the forecast a points answer names under
    ["properties"]["forecast"], when it names one by a [str]. *)
Definition forecast_url_of (data : json) : option string :=
  match (let! properties := py_getitem data "properties" in
         py_getitem properties "forecast") with
  | Ret (JStr u) => Some u
  | _ => None
  end.

(* ================================================================= *)
(** ** The layout of the rendered texts *)

(** A part of the text a renderer returns, as its f-string has it:
    - [Lit text], a literal text;
    - [Field path p], a replacement field [{d.get(k, p)}], or
      [{d.get(k1, {}).get(k2, p)}] for a path of two keys or more;
    - [Cut n path p], such a field sliced: [{d.get(k, p)[:n]}];
    - [Ellipsis n path], the mark of a cut:
      [{'...' if len(d.get(k1, {}).get(k2, '')) > n else ''}];
    - [Guarded path p], a field read only when its first key holds a true
      value: [{d.get(k1, {}).get(k2, p) if d.get(k1) else p}];
    - [Names key p], the names of the objects under [key], joined by a
      comma and a space, or [p] when the joined text is empty. *)
Inductive segment : Type :=
| Lit (text : string)
| Field (path : list string) (placeholder : json)
| Cut (n : nat) (path : list string) (placeholder : json)
| Ellipsis (n : nat) (path : list string)
| Guarded (path : list string) (placeholder : json)
| Names (key : string) (placeholder : string).

(** [record.get(k1, {}). ... .get(kn, p)] *)
Fixpoint value_at (path : list string) (p : json) (record : json) : outcome json :=
  match path with
  | [] => Ret record
  | k :: rest =>
      match rest with
      | [] => py_get record k p
      | _ :: _ => let! inner := py_get record k (JDict []) in value_at rest p inner
      end
  end.

(** The text a part stands for in the rendering of a record. *)
Definition seg_text (record : json) (seg : segment) : outcome string :=
  match seg with
  | Lit text => Ret text
  | Field path p =>
      let! v := value_at path p record in
      Ret (py_str v)
  | Cut n path p =>
      let! v := value_at path p record in
      let! v := py_slice v n in
      Ret (py_str v)
  | Ellipsis n path =>
      let! v := value_at path (JStr EmptyString) record in
      let! length := py_len v in
      Ret (if (n <? length)%nat then "..." else EmptyString)
  | Guarded path p =>
      let! guard := value_at (firstn 1 path) JNone record in
      if truthy guard
      then let! v := value_at path p record in Ret (py_str v)
      else Ret (py_str p)
  | Names key p =>
      let! labels := py_get record key (JList []) in
      let! labels := py_iter labels in
      let! names := for_each (fun label => py_getitem label "name") labels in
      let! labels := py_join ", " names in
      Ret (if negb (String.eqb labels EmptyString) then labels else p)
  end.

(** The text of a layout for a record: the texts of its parts, one after
    the other. *)
Fixpoint fill (record : json) (template : list segment) : outcome string :=
  match template with
  | [] => Ret EmptyString
  | seg :: rest =>
      let! text := seg_text record seg in
      let! texts := fill record rest in
      Ret (text ++ texts)
  end.

(** The text a renderer returns, if it returns one. *)
Definition text_of (o : outcome string) : option string :=
  match o with
  | Ret text => Some text
  | Raise _ => None
  end.

(** A line of a layout: a label, a field and the end of the line. *)
Definition line (label : string) (path : list string) (p : json) : list segment :=
  [Lit label; Field path p; Lit nl].

(** The layouts, read off the f-strings of the source. *)
Definition alert_template : list segment :=
  (Lit nl
   :: line "Event: " ["event"] (JStr "Unknown")
   ++ line "Area: " ["areaDesc"] (JStr "Unknown")
   ++ line "Severity: " ["severity"] (JStr "Unknown")
   ++ line "Description: " ["description"] (JStr "No description available")
   ++ line "Instructions: " ["instruction"] (JStr "No specific instructions provided"))%list.

Definition user_template : list segment :=
  (Lit nl
   :: line "Username: " ["login"] (JStr "N/A")
   ++ line "Name: " ["name"] (JStr "N/A")
   ++ line "Bio: " ["bio"] (JStr "No bio available")
   ++ line "Public Repos: " ["public_repos"] (JInt 0)
   ++ line "Followers: " ["followers"] (JInt 0)
   ++ line "Following: " ["following"] (JInt 0)
   ++ line "Location: " ["location"] (JStr "N/A")
   ++ line "Company: " ["company"] (JStr "N/A")
   ++ line "Blog: " ["blog"] (JStr "N/A")
   ++ line "Created: " ["created_at"] (JStr "N/A"))%list.

Definition repo_template : list segment :=
  (Lit nl
   :: line "Name: " ["name"] (JStr "N/A")
   ++ line "Description: " ["description"] (JStr "No description")
   ++ line "Language: " ["language"] (JStr "N/A")
   ++ line "Stars: " ["stargazers_count"] (JInt 0)
   ++ line "Forks: " ["forks_count"] (JInt 0)
   ++ line "Updated: " ["updated_at"] (JStr "N/A")
   ++ line "URL: " ["html_url"] (JStr "N/A"))%list.

(** The layout of [get_github_repo_info] before the line of the licence,
    and after the licence. *)
Definition repository_head : list segment :=
  (Lit nl
   :: line "Repository: " ["full_name"] (JStr "N/A")
   ++ line "Description: " ["description"] (JStr "No description")
   ++ line "Language: " ["language"] (JStr "N/A")
   ++ line "Stars: " ["stargazers_count"] (JInt 0)
   ++ line "Forks: " ["forks_count"] (JInt 0)
   ++ line "Watchers: " ["watchers_count"] (JInt 0)
   ++ line "Open Issues: " ["open_issues_count"] (JInt 0)
   ++ [Lit "Size: "; Field ["size"] (JInt 0); Lit " KB"; Lit nl]
   ++ line "Default Branch: " ["default_branch"] (JStr "N/A")
   ++ line "Created: " ["created_at"] (JStr "N/A")
   ++ line "Updated: " ["updated_at"] (JStr "N/A"))%list.

Definition repository_tail : list segment :=
  (Lit nl
   :: line "URL: " ["html_url"] (JStr "N/A")
   ++ line "Clone URL: " ["clone_url"] (JStr "N/A"))%list.

Definition repository_template : list segment :=
  (repository_head
   ++ Lit "License: " :: Guarded ["license"; "name"] (JStr "N/A") :: repository_tail)%list.

Definition search_template : list segment :=
  (Lit nl
   :: line "Name: " ["full_name"] (JStr "N/A")
   ++ line "Description: " ["description"] (JStr "No description")
   ++ line "Language: " ["language"] (JStr "N/A")
   ++ line "Stars: " ["stargazers_count"] (JInt 0)
   ++ line "Forks: " ["forks_count"] (JInt 0)
   ++ line "URL: " ["html_url"] (JStr "N/A"))%list.

Definition issue_template : list segment :=
  ([Lit nl; Lit "#"; Field ["number"] (JStr "N/A"); Lit ": ";
    Field ["title"] (JStr "No title"); Lit nl]
   ++ line "State: " ["state"] (JStr "N/A")
   ++ line "Author: " ["user"; "login"] (JStr "N/A")
   ++ [Lit "Labels: "; Names "labels" "None"; Lit nl]
   ++ line "Created: " ["created_at"] (JStr "N/A")
   ++ line "URL: " ["html_url"] (JStr "N/A"))%list.

Definition commit_template : list segment :=
  ([Lit nl; Lit "SHA: "; Cut 8 ["sha"] (JStr "N/A"); Lit nl;
    Lit "Message: "; Cut 100 ["commit"; "message"] (JStr "No message");
    Ellipsis 100 ["commit"; "message"]; Lit nl]
   ++ line "Author: " ["commit"; "author"; "name"] (JStr "N/A")
   ++ line "Date: " ["commit"; "author"; "date"] (JStr "N/A")
   ++ line "URL: " ["html_url"] (JStr "N/A"))%list.

(** The lines the rail loops add for one item. *)
Definition station_template : list segment :=
  (line "Name: " ["StationName"] (JStr "N/A")
   ++ line "Code: " ["StationCode"] (JStr "N/A")
   ++ line "State: " ["StateName"] (JStr "N/A")
   ++ [Lit "---"; Lit nl])%list.

Definition heading_template (train_number : string) : list segment :=
  ([Lit "Train "; Lit train_number; Lit " Schedule:"; Lit nl]
   ++ line "Train Name: " ["TrainName"] (JStr "N/A")
   ++ line "Train Number: " ["TrainNumber"] (JStr "N/A")
   ++ [Lit nl])%list.

Definition route_template : list segment :=
  [Lit "Station: "; Field ["StationName"] (JStr "N/A");
   Lit " ("; Field ["StationCode"] (JStr "N/A"); Lit ")"; Lit nl;
   Lit "Arrival: "; Field ["ArrivalTime"] (JStr "N/A");
   Lit " | Departure: "; Field ["DepartureTime"] (JStr "N/A"); Lit nl;
   Lit "Distance: "; Field ["DistanceFromSource"] (JStr "N/A"); Lit " km"; Lit nl;
   Lit "---"; Lit nl].

Definition train_template : list segment :=
  [Lit "Train: "; Field ["TrainName"] (JStr "N/A");
   Lit " ("; Field ["TrainNumber"] (JStr "N/A"); Lit ")"; Lit nl;
   Lit "Arrival: "; Field ["ArrivalTime"] (JStr "N/A");
   Lit " | Departure: "; Field ["DepartureTime"] (JStr "N/A"); Lit nl;
   Lit "Source: "; Field ["SourceStationName"] (JStr "N/A");
   Lit " | Destination: "; Field ["DestinationStationName"] (JStr "N/A"); Lit nl;
   Lit "---"; Lit nl].

(** An alert feature with the given properties. *)
Definition feature_of (props : json) : json := JDict [("properties", props)].

(** The renderers of the catalog: the function that formats an alert, the
    two f-strings returned as they are, the bodies of the four GitHub loops
    and the texts the rail tools add to what they have so far.  [Alert]
    renders the properties of a feature. *)
Inductive renderer : Type :=
| Alert
| User
| Repo
| Repository
| SearchRepo
| Issue
| Commit
| Station (result : string)
| Heading (train_number : string)
| Stop (train_info : string)
| Train (result : string).

Definition render (r : renderer) : json -> outcome string :=
  match r with
  | Alert => fun props => format_alert (feature_of props)
  | User => user_info
  | Repo => repo_info
  | Repository => repository_info
  | SearchRepo => search_repo_info
  | Issue => issue_info
  | Commit => commit_info
  | Station result => station_lines result
  | Heading train_number => train_heading train_number
  | Stop train_info => route_lines train_info
  | Train result => train_lines result
  end.

Definition template (r : renderer) : list segment :=
  match r with
  | Alert => alert_template
  | User => user_template
  | Repo => repo_template
  | Repository => repository_template
  | SearchRepo => search_template
  | Issue => issue_template
  | Commit => commit_template
  | Station result => Lit result :: station_template
  | Heading train_number => heading_template train_number
  | Stop train_info => Lit train_info :: route_template
  | Train result => Lit result :: train_template
  end.




(** The value a path of keys leads to in a record that has every key of
    the path. *)
Fixpoint found_at (path : list string) (record : json) : option json :=
  match path with
  | [] => Some record
  | k :: rest =>
      match record with
      | JDict fields =>
          match lookup k fields with
          | Some inner => found_at rest inner
          | None => None
          end
      | _ => None
      end
  end.



(* ================================================================= *)
(** ** Running the helpers *)

Lemma make_nws_request_run net u sent :
  make_nws_request net (JStr u) sent
  = ((sent ++ [nws_get u])%list, Ret (body_or_none (net sent (nws_get u)))).
Proof.
  unfold make_nws_request, bind, send, nws_get, body_or_none, ret.
  destruct (net sent _); reflexivity.
Qed.

Lemma make_nws_request_not_str net v sent :
  (forall u, v <> JStr u) -> make_nws_request net v sent = (sent, Ret JNone).
Proof.
  intros H. destruct v; try reflexivity. now elim (H s).
Qed.

Lemma make_github_request_run token net u sent :
  make_github_request token net u sent
  = ((sent ++ [github_get token u])%list,
     Ret (body_or_none (net sent (github_get token u)))).
Proof.
  unfold make_github_request, bind, send, github_get, body_or_none, ret.
  destruct (is_set token); simpl; destruct (net sent _); reflexivity.
Qed.

Lemma fetch_data_run net u sent :
  fetch_data net u sent
  = ((sent ++ [rail_get u])%list, Ret (body_or_error (net sent (rail_get u)))).
Proof.
  unfold fetch_data, bind, send, rail_get, body_or_error, ret.
  destruct (net sent _); reflexivity.
Qed.

(** A tool that sends one request and then only computes on the answer. *)
Lemma bind_run {A B : Type} (m : M A) (k : A -> M B) sent sent' a :
  m sent = (sent', Ret a) -> bind m k sent = k a sent'.
Proof. unfold bind. now intros ->. Qed.

Lemma fst_lift {A : Type} (o : outcome A) sent : fst (lift o sent) = sent.
Proof. reflexivity. Qed.

Lemma snd_lift {A : Type} (o : outcome A) sent : snd (lift o sent) = o.
Proof. reflexivity. Qed.

Lemma fst_if_ret_lift {A : Type} (b : bool) (a : A) (o : outcome A) sent :
  fst ((if b then ret a else lift o) sent) = sent.
Proof. now destruct b. Qed.

Ltac run_github :=
  erewrite bind_run by apply make_github_request_run.
Ltac run_nws :=
  erewrite bind_run by apply make_nws_request_run.
Ltac run_rail :=
  erewrite bind_run by apply fetch_data_run.

(* ================================================================= *)
(** ** The per-page value of the GitHub list tools *)

(** C5: whatever limit is asked for, the one request a GitHub list tool
    sends carries [per_page = min(limit, cap)], which is at most the cap:
    50 for [get_github_repos], 30 for [search_github_repos] and
    [get_github_issues], 20 for [get_github_commits]; asking
    [get_github_repos("octocat", limit=100)] requests [per_page=50]. *)
Theorem per_page_is_clamped :
  forall (token : option string) net sent (limit : Z),
    (forall username,
        fst (get_github_repos token net username limit sent)
        = (sent ++ [github_get token
                      (GITHUB_API_BASE ++ "/users/" ++ username
                         ++ "/repos?sort=updated&per_page="
                         ++ str_of_int (Z.min limit 50))])%list)
    /\ (forall query,
        fst (search_github_repos token net query limit sent)
        = (sent ++ [github_get token
                      (GITHUB_API_BASE ++ "/search/repositories?q=" ++ query
                         ++ "&sort=stars&order=desc&per_page="
                         ++ str_of_int (Z.min limit 30))])%list)
    /\ (forall owner repo state,
        fst (get_github_issues token net owner repo state limit sent)
        = (sent ++ [github_get token
                      (GITHUB_API_BASE ++ "/repos/" ++ owner ++ "/" ++ repo
                         ++ "/issues?state="
                         ++ (if allowed_state state then state else "open")
                         ++ "&per_page=" ++ str_of_int (Z.min limit 30))])%list)
    /\ (forall owner repo,
        fst (get_github_commits token net owner repo limit sent)
        = (sent ++ [github_get token
                      (GITHUB_API_BASE ++ "/repos/" ++ owner ++ "/" ++ repo
                         ++ "/commits?per_page="
                         ++ str_of_int (Z.min limit 20))])%list)
    /\ (Z.min limit 50 <= 50 /\ Z.min limit 30 <= 30 /\ Z.min limit 20 <= 20)%Z
    /\ fst (get_github_repos token net "octocat" 100 sent)
       = (sent ++ [github_get token
                     "https://api.github.com/users/octocat/repos?sort=updated&per_page=50"])%list.
Proof.
  intros token net sent limit.
  repeat split; intros; try lia.
  - unfold get_github_repos. run_github. apply fst_if_ret_lift.
  - unfold search_github_repos. run_github. apply fst_lift.
  - unfold get_github_issues. run_github.
    destruct (allowed_state state); apply fst_if_ret_lift.
  - unfold get_github_commits. run_github. apply fst_if_ret_lift.
  - unfold get_github_repos. run_github. apply fst_if_ret_lift.
Qed.

(* ================================================================= *)
(** ** The rail credential *)

(** C6: with [INDIAN_RAIL_API_KEY] unset ([os.getenv] gave [None]), each
    of the three rail tools returns exactly
    ["Indian Rail API key not configured"] for every input, and the list
    of requests sent is left as it was: nothing goes to the network. *)
Theorem rail_key_not_configured :
  forall upper net (input : string) sent,
    station_name_to_code upper None net input sent
    = (sent, Ret "Indian Rail API key not configured")
    /\ get_train_schedule_indian_rail None net input sent
       = (sent, Ret "Indian Rail API key not configured")
    /\ get_all_trains_on_station upper None net input sent
       = (sent, Ret "Indian Rail API key not configured").
Proof. intros upper net input sent. repeat split. Qed.

(* ================================================================= *)
(** ** The state filter of [get_github_issues] *)

(** C7: a [state] outside ["open"], ["closed"], ["all"] makes
    [get_github_issues] run exactly as with ["open"]: the same requests
    are sent and the same text (or exception) comes back. *)
Theorem unknown_state_is_open :
  forall (token : option string) net owner repo state (limit : Z) sent,
    state <> "open" -> state <> "closed" -> state <> "all" ->
    get_github_issues token net owner repo state limit sent
    = get_github_issues token net owner repo "open" limit sent.
Proof.
  intros token net owner repo state limit sent Ho Hc Ha.
  unfold get_github_issues.
  assert (E : allowed_state state = false).
  { unfold allowed_state. simpl.
    apply String.eqb_neq in Ho, Hc, Ha. now rewrite Ho, Hc, Ha. }
  rewrite E. reflexivity.
Qed.

Lemma unknown_state_is_open_witness :
  get_github_issues None (fun _ _ => inr (JList [JDict [("number", JInt 7)]]))
    "octocat" "hello" "merged" 5 []
  = get_github_issues None (fun _ _ => inr (JList [JDict [("number", JInt 7)]]))
      "octocat" "hello" "open" 5 [].
Proof.
  apply (unknown_state_is_open None _ "octocat" "hello" "merged" 5 []);
    discriminate.
Defined.

(* ================================================================= *)
(** ** Alerts with no feature *)

(** C8: when the upstream answers the request of [get_alerts("CA")] with
    an object whose ["features"] is the empty list, [get_alerts] returns
    exactly ["No active alerts for this state."]; the same holds for
    every state. *)
Theorem no_active_alerts :
  forall net state sent fields,
    net sent (nws_get (NWS_API_BASE ++ "/alerts/active/area/" ++ state))
    = inr (JDict fields) ->
    lookup "features" fields = Some (JList []) ->
    snd (get_alerts net state sent) = Ret "No active alerts for this state.".
Proof.
  intros net state sent fields Hnet Hfeatures.
  unfold get_alerts. run_nws. rewrite Hnet, snd_lift. simpl.
  destruct fields as [|kv rest]; [discriminate|].
  unfold missing. cbn [truthy negb py_contains obind py_getitem].
  rewrite Hfeatures. reflexivity.
Qed.

Lemma no_active_alerts_witness :
  snd (get_alerts (fun _ _ => inr (JDict [("type", JStr "FeatureCollection");
                                          ("features", JList [])])) "CA" [])
  = Ret "No active alerts for this state.".
Proof.
  apply (no_active_alerts _ "CA" []
           [("type", JStr "FeatureCollection"); ("features", JList [])]);
    reflexivity.
Defined.

(* ================================================================= *)
(** ** Upper case in upstream paths *)

Lemma upper_char_lower_char c : upper_char (lower_char c) = upper_char c.
Proof. destruct c as [[] [] [] [] [] [] [] []]; reflexivity. Qed.

Lemma upper_char_idem c : upper_char (upper_char c) = upper_char c.
Proof. destruct c as [[] [] [] [] [] [] [] []]; reflexivity. Qed.

Lemma upper_char_ascii c :
  (nat_of_ascii c <? 128)%nat = true -> (nat_of_ascii (upper_char c) <? 128)%nat = true.
Proof. destruct c as [[] [] [] [] [] [] [] []]; intros H; try discriminate H; reflexivity. Qed.

Lemma lower_char_ascii c :
  (nat_of_ascii c <? 128)%nat = true -> (nat_of_ascii (lower_char c) <? 128)%nat = true.
Proof. destruct c as [[] [] [] [] [] [] [] []]; intros H; try discriminate H; reflexivity. Qed.

Lemma ascii_upper_lower s : ascii_upper (ascii_lower s) = ascii_upper s.
Proof.
  induction s as [|c s IH]; simpl; [reflexivity|].
  now rewrite upper_char_lower_char, IH.
Qed.

Lemma ascii_upper_idem s : ascii_upper (ascii_upper s) = ascii_upper s.
Proof.
  induction s as [|c s IH]; simpl; [reflexivity|].
  now rewrite upper_char_idem, IH.
Qed.

Lemma ascii_upper_is_ascii s : is_ascii s = true -> is_ascii (ascii_upper s) = true.
Proof.
  induction s as [|c s IH]; cbn [is_ascii ascii_upper]; [reflexivity|].
  intros H. apply andb_true_iff in H. destruct H as [Hc Hs].
  now rewrite (upper_char_ascii _ Hc), (IH Hs).
Qed.

Lemma ascii_lower_is_ascii s : is_ascii s = true -> is_ascii (ascii_lower s) = true.
Proof.
  induction s as [|c s IH]; cbn [is_ascii ascii_lower]; [reflexivity|].
  intros H. apply andb_true_iff in H. destruct H as [Hc Hs].
  now rewrite (lower_char_ascii _ Hc), (IH Hs).
Qed.

(** The two rail tools read their input through [upper] only. *)
Lemma station_name_to_code_only_upper upper key net a b sent :
  upper a = upper b ->
  station_name_to_code upper key net a sent = station_name_to_code upper key net b sent.
Proof. intros E. unfold station_name_to_code. now rewrite E. Qed.

Lemma get_all_trains_on_station_only_upper upper key net a b sent :
  upper a = upper b ->
  get_all_trains_on_station upper key net a sent
  = get_all_trains_on_station upper key net b sent.
Proof. intros E. unfold get_all_trains_on_station. now rewrite E. Qed.

Lemma station_name_to_code_request upper key net s sent :
  is_set key = true ->
  fst (station_name_to_code upper key net s sent)
  = (sent ++ [rail_get (INDIAN_RAIL_BASE_URL ++ "/StationNameToCode/apikey/"
                          ++ env_str key ++ "/StationName/" ++ upper s)])%list.
Proof.
  intros Hkey. unfold station_name_to_code. rewrite Hkey. cbv beta iota zeta delta [negb].
  run_rail. apply fst_lift.
Qed.

Lemma get_all_trains_on_station_request upper key net s sent :
  is_set key = true ->
  fst (get_all_trains_on_station upper key net s sent)
  = (sent ++ [rail_get (INDIAN_RAIL_BASE_URL ++ "/AllTrainOnStation/apikey/"
                          ++ env_str key ++ "/StationCode/" ++ upper s)])%list.
Proof.
  intros Hkey. unfold get_all_trains_on_station. rewrite Hkey. cbv beta iota zeta delta [negb].
  run_rail. apply fst_lift.
Qed.

(** C3, as it stands, fails for [get_alerts]: the state goes into the path
    as it was given, so ["ca"] and ["CA"] are two different requests. *)
Lemma get_alerts_keeps_the_case :
  fst (get_alerts (fun _ _ => inl "400 Bad Request") "ca" [])
  = [nws_get "https://api.weather.gov/alerts/active/area/ca"]
  /\ fst (get_alerts (fun _ _ => inl "400 Bad Request") "CA" [])
     = [nws_get "https://api.weather.gov/alerts/active/area/CA"]
  /\ fst (get_alerts (fun _ _ => inl "400 Bad Request") (ascii_lower "CA") [])
     <> fst (get_alerts (fun _ _ => inl "400 Bad Request") (ascii_upper "CA") []).
Proof. repeat split. vm_compute. discriminate. Qed.

(** C3, amended: the two rail tools that take a station name or a station
    code put [upper] of it into the path, so the request and the whole run
    depend on the input through its upper-case form only: two inputs with
    the same upper-case form give the same run.  For an input of ASCII
    characters, on which [str.upper] is the ASCII case map, the lower-case
    and the upper-case variant therefore send the same request, with the
    upper-case variant in the path.  (Outside ASCII the case mapping of the
    runtime need not map the two variants to one string.)  [get_alerts] is
    not part of this: it embeds the state unchanged. *)
Theorem rail_station_inputs_are_uppercased :
  forall (upper : string -> string) key net s sent,
    is_set key = true ->
    (forall t, is_ascii t = true -> upper t = ascii_upper t) ->
    is_ascii s = true ->
    (station_name_to_code upper key net (ascii_lower s) sent
     = station_name_to_code upper key net (ascii_upper s) sent
     /\ fst (station_name_to_code upper key net (ascii_lower s) sent)
        = (sent ++ [rail_get (INDIAN_RAIL_BASE_URL ++ "/StationNameToCode/apikey/"
                                ++ env_str key ++ "/StationName/" ++ ascii_upper s)])%list)
    /\ (get_all_trains_on_station upper key net (ascii_lower s) sent
        = get_all_trains_on_station upper key net (ascii_upper s) sent
        /\ fst (get_all_trains_on_station upper key net (ascii_lower s) sent)
           = (sent ++ [rail_get (INDIAN_RAIL_BASE_URL ++ "/AllTrainOnStation/apikey/"
                                   ++ env_str key ++ "/StationCode/"
                                   ++ ascii_upper s)])%list)
    /\ (forall a b,
           upper a = upper b ->
           station_name_to_code upper key net a sent
           = station_name_to_code upper key net b sent
           /\ get_all_trains_on_station upper key net a sent
              = get_all_trains_on_station upper key net b sent)
    /\ (forall state,
           fst (get_alerts net state sent)
           = (sent ++ [nws_get (NWS_API_BASE ++ "/alerts/active/area/" ++ state)])%list).
Proof.
  intros upper key net s sent Hkey Hupper Hascii.
  assert (Hlow : upper (ascii_lower s) = ascii_upper s).
  { rewrite Hupper by now apply ascii_lower_is_ascii. apply ascii_upper_lower. }
  assert (Hup : upper (ascii_upper s) = ascii_upper s).
  { rewrite Hupper by now apply ascii_upper_is_ascii. apply ascii_upper_idem. }
  repeat split.
  - apply station_name_to_code_only_upper. now rewrite Hlow, Hup.
  - rewrite station_name_to_code_request by assumption. now rewrite Hlow.
  - apply get_all_trains_on_station_only_upper. now rewrite Hlow, Hup.
  - rewrite get_all_trains_on_station_request by assumption. now rewrite Hlow.
  - now apply station_name_to_code_only_upper.
  - now apply get_all_trains_on_station_only_upper.
  - intros state. unfold get_alerts. run_nws. apply fst_lift.
Qed.

Lemma rail_station_inputs_are_uppercased_witness :
  fst (station_name_to_code ascii_upper (Some "k3y") (fun _ _ => inl "timed out")
         (ascii_lower "Delhi") [])
  = [rail_get "https://indianrailapi.com/api/v2/StationNameToCode/apikey/k3y/StationName/DELHI"].
Proof.
  exact (proj2 (proj1 (rail_station_inputs_are_uppercased
                         ascii_upper (Some "k3y") (fun _ _ => inl "timed out") "Delhi" []
                         eq_refl (fun t _ => eq_refl) eq_refl))).
Defined.

(* ================================================================= *)
(** ** How many entries a list tool renders *)

Lemma for_each_length {A B : Type} (body : A -> outcome B) l ys :
  for_each body l = Ret ys -> List.length ys = List.length l.
Proof.
  revert ys. induction l as [|x l IH]; simpl; intros ys H.
  - now inversion H.
  - destruct (body x) as [y|e]; simpl in H; [|discriminate].
    destruct (for_each body l) as [ys'|e]; simpl in H; [|discriminate].
    inversion H; subst. simpl. f_equal. now apply IH.
Qed.

Lemma obind_Ret {A B : Type} (o : outcome A) (k : A -> outcome B) b :
  obind o k = Ret b -> exists a, o = Ret a /\ k a = Ret b.
Proof. destruct o as [a|e]; simpl; intros H; [eauto|discriminate]. Qed.

(** Past the absence test, a list tool renders every item of the answer
    and joins the entries. *)
Lemma run_list_tool_on_items token net t limit sent data items :
  net sent (github_get token (list_url t limit)) = inr data ->
  returned t data items ->
  snd (run_list_tool token net t limit sent)
  = match t, items with
    | Search _, _ | _, _ :: _ =>
        let! entries := for_each (entry t) items in Ret (join separator entries)
    | _, [] => Ret (empty_text t)
    end.
Proof.
  intros Hnet Hdata.
  destruct t; cbn [list_url returned run_list_tool entry empty_text] in Hdata, Hnet |- *.
  - unfold get_github_repos. run_github. rewrite Hnet. subst data.
    destruct items; reflexivity.
  - unfold search_github_repos. run_github. rewrite Hnet.
    destruct Hdata as (fields & -> & Hitems). rewrite snd_lift.
    destruct fields as [|kv rest]; [discriminate|].
    unfold missing. cbn [body_or_none truthy negb py_contains obind py_getitem].
    rewrite Hitems. reflexivity.
  - unfold get_github_issues. run_github.
    replace (if negb (allowed_state state) then "open" else state)
      with (if allowed_state state then state else "open")
      by now destruct (allowed_state state).
    rewrite Hnet. subst data. destruct items; reflexivity.
  - unfold get_github_commits. run_github. rewrite Hnet. subst data.
    destruct items; reflexivity.
Qed.

(** C1, as it stands, fails: asked for one repository, the tool renders
    the two the upstream returned, more than [min(1, 50)]. *)
Lemma more_entries_than_the_limit :
  exists entries,
    snd (get_github_repos None
           (fun _ _ => inr (JList [JDict [("name", JStr "alpha")];
                                   JDict [("name", JStr "beta")]]))
           "octocat" 1 [])
    = Ret (join separator entries)
    /\ for_each repo_info [JDict [("name", JStr "alpha")]; JDict [("name", JStr "beta")]]
       = Ret entries
    /\ List.length entries = 2%nat
    /\ (Z.min 1 50 < Z.of_nat (List.length entries))%Z.
Proof. eexists. repeat split. Qed.

(** C1, amended: a list tool applies no limit of its own to what it
    renders.  For every limit and every list the upstream returns, a tool
    that returns a text has rendered one entry per returned item, in order
    (for an empty list the text is the tool's fixed message, and the empty
    text for a search); so the number of entries is the number of items
    returned, and it is at most [min(limit, cap)] when the upstream
    returned no more than the [per_page] it was asked for. *)
Theorem list_tools_render_every_item :
  forall token net t (limit : Z) sent data items text,
    net sent (github_get token (list_url t limit)) = inr data ->
    returned t data items ->
    snd (run_list_tool token net t limit sent) = Ret text ->
    exists entries,
      for_each (entry t) items = Ret entries
      /\ List.length entries = List.length items
      /\ text = match items with
                | [] => empty_text t
                | _ => join separator entries
                end
      /\ ((Z.of_nat (List.length items) <= Z.min limit (cap t))%Z ->
          (Z.of_nat (List.length entries) <= Z.min limit (cap t))%Z).
Proof.
  intros token net t limit sent data items text Hnet Hdata Hrun.
  rewrite (run_list_tool_on_items _ _ _ _ _ _ _ Hnet Hdata) in Hrun.
  assert (Hcases :
            (items = [] /\ text = empty_text t)
            \/ (exists entries, for_each (entry t) items = Ret entries
                                /\ text = join separator entries
                                /\ items <> [])).
  { destruct items as [|i items].
    - left. split; [reflexivity|].
      destruct t; simpl in Hrun; now inversion Hrun.
    - right.
      assert (H : (let! entries := for_each (entry t) (i :: items) in
                   Ret (join separator entries)) = Ret text)
        by (destruct t; exact Hrun).
      apply obind_Ret in H. destruct H as (entries & He & Ht).
      exists entries. repeat split; [assumption|now inversion Ht|discriminate]. }
  destruct Hcases as [[-> ->]|(entries & He & -> & Hne)].
  - exists []. repeat split. intros H; exact H.
  - exists entries. pose proof (for_each_length _ _ _ He) as Hlen.
    repeat split; try assumption.
    + destruct items; [contradiction|reflexivity].
    + now rewrite Hlen.
Qed.

Lemma list_tools_render_every_item_witness :
  exists entries,
    for_each commit_info [JDict [("sha", JStr "0123456789abcdef")]] = Ret entries
    /\ List.length entries = 1%nat.
Proof.
  destruct (list_tools_render_every_item
              None (fun _ _ => inr (JList [JDict [("sha", JStr "0123456789abcdef")]]))
              (Commits "octocat" "hello") 5 []
              (JList [JDict [("sha", JStr "0123456789abcdef")]])
              [JDict [("sha", JStr "0123456789abcdef")]]
              (join separator
                 [nl ++ "SHA: 01234567" ++ nl ++ "Message: No message" ++ nl
                     ++ "Author: N/A" ++ nl ++ "Date: N/A" ++ nl ++ "URL: N/A" ++ nl])
              eq_refl eq_refl eq_refl)
    as (entries & He & Hl & _).
  exists entries. split; assumption.
Defined.

(* ================================================================= *)
(** ** Fixed truncation of the tools without a limit *)

Lemma append_nil_r (s : string) : s ++ EmptyString = s.
Proof. induction s as [|c s IH]; simpl; [reflexivity|now rewrite IH]. Qed.

Lemma append_assoc (a b c : string) : (a ++ b) ++ c = a ++ (b ++ c).
Proof. induction a as [|x a IH]; simpl; [reflexivity|now rewrite IH]. Qed.

Lemma join_empty_cons (p : string) (rest : list string) :
  join EmptyString (p :: rest) = p ++ join EmptyString rest.
Proof. destruct rest; simpl; [now rewrite append_nil_r|reflexivity]. Qed.

(** A loop that only appends is the concatenation of what each turn
    appends. *)
Lemma for_acc_chunks {A : Type} (body : string -> A -> outcome string) :
  (forall acc x, body acc x = let! chunk := body EmptyString x in Ret (acc ++ chunk)) ->
  forall l acc,
    for_acc body acc l
    = let! chunks := for_each (body EmptyString) l in
      Ret (acc ++ join EmptyString chunks).
Proof.
  intros Hbody. induction l as [|x l IH]; intros acc; cbn [for_acc for_each obind].
  - cbn [join]. now rewrite append_nil_r.
  - rewrite Hbody.
    destruct (body EmptyString x) as [chunk|e]; cbn [obind]; [|reflexivity].
    rewrite IH.
    destruct (for_each (body EmptyString) l) as [chunks|e]; cbn [obind]; [|reflexivity].
    now rewrite join_empty_cons, append_assoc.
Qed.

Ltac appends_only :=
  let acc := fresh "acc" in
  let x := fresh "x" in
  intros acc x; destruct x; try reflexivity;
  cbn [py_get obind]; f_equal;
  repeat rewrite append_assoc; reflexivity.

Lemma station_lines_appends acc x :
  station_lines acc x = let! chunk := station_lines EmptyString x in Ret (acc ++ chunk).
Proof. revert acc x. unfold station_lines. appends_only. Qed.

Lemma route_lines_appends acc x :
  route_lines acc x = let! chunk := route_lines EmptyString x in Ret (acc ++ chunk).
Proof. revert acc x. unfold route_lines. appends_only. Qed.

Lemma train_lines_appends acc x :
  train_lines acc x = let! chunk := train_lines EmptyString x in Ret (acc ++ chunk).
Proof. revert acc x. unfold train_lines. appends_only. Qed.

Lemma firstn_at_most {A : Type} (n : nat) (l : list A) :
  (List.length (firstn n l) <= n)%nat.
Proof. rewrite length_firstn. lia. Qed.

Lemma lists_truthy fields key items :
  lists fields key items ->
  py_contains "error" (JDict fields) = Ret false
  /\ found (JDict fields) key = Ret true
  /\ py_getitem (JDict fields) key = Ret (JList items)
  /\ truthy (JList items) = true.
Proof.
  intros (Herror & Hcode & Hkey & Hitems).
  unfold found, py_contains, py_getitem, py_get, obind.
  rewrite Herror, Hcode, Hkey. unfold field. rewrite Hkey.
  destruct items; [contradiction|]. repeat split.
Qed.

Lemma get_forecast_first_five net latitude longitude sent
      points_data properties forecast_url forecast_data properties' periods :
  net sent (nws_get (NWS_API_BASE ++ "/points/" ++ latitude ++ "," ++ longitude))
  = inr points_data ->
  py_getitem points_data "properties" = Ret properties ->
  py_getitem properties "forecast" = Ret (JStr forecast_url) ->
  net (sent ++ [nws_get (NWS_API_BASE ++ "/points/" ++ latitude ++ "," ++ longitude)])%list
      (nws_get forecast_url)
  = inr forecast_data ->
  py_getitem forecast_data "properties" = Ret properties' ->
  py_getitem properties' "periods" = Ret (JList periods) ->
  snd (get_forecast net latitude longitude sent)
  = let! forecasts := for_each forecast (firstn 5 periods) in
    Ret (join separator forecasts).
Proof.
  intros Hpoints Hprops Hurl Hforecast Hprops' Hperiods.
  unfold get_forecast. run_nws. rewrite Hpoints. cbn [body_or_none].
  assert (Ht : truthy points_data = true).
  { destruct points_data; try discriminate. destruct fields; [discriminate|reflexivity]. }
  rewrite Ht. cbn [negb].
  unfold bind at 1. unfold lift at 1. rewrite Hprops. cbn [obind]. rewrite Hurl.
  run_nws. rewrite Hforecast. cbn [body_or_none].
  assert (Ht' : truthy forecast_data = true).
  { destruct forecast_data; try discriminate. destruct fields; [discriminate|reflexivity]. }
  rewrite Ht'. cbn [negb]. rewrite snd_lift, Hprops'. cbn [obind].
  rewrite Hperiods. reflexivity.
Qed.

Lemma station_name_to_code_first_five upper key net station_name sent fields stations :
  is_set key = true ->
  net sent (rail_get (INDIAN_RAIL_BASE_URL ++ "/StationNameToCode/apikey/"
                        ++ env_str key ++ "/StationName/" ++ upper station_name))
  = inr (JDict fields) ->
  lists fields "Station" stations ->
  snd (station_name_to_code upper key net station_name sent)
  = let! chunks := for_each (station_lines EmptyString) (firstn 5 stations) in
    Ret (("Station codes found:" ++ nl) ++ join EmptyString chunks).
Proof.
  intros Hkey Hnet Hlists.
  destruct (lists_truthy _ _ _ Hlists) as (Herror & Hfound & Hget & Htruthy).
  unfold station_name_to_code. rewrite Hkey. cbv beta iota zeta delta [negb].
  run_rail. rewrite Hnet, snd_lift. cbn [body_or_error].
  rewrite Herror. cbn [obind]. rewrite Hfound. cbn [obind]. rewrite Hget. cbn [obind].
  rewrite Htruthy. cbn [isinstance_list andb py_slice py_iter obind].
  apply for_acc_chunks, station_lines_appends.
Qed.

Lemma train_heading_dict train_number fields :
  train_heading train_number (JDict fields)
  = Ret ((("Train " ++ train_number ++ " Schedule:" ++ nl)
            ++ "Train Name: " ++ py_str (field fields "TrainName" (JStr "N/A")) ++ nl)
           ++ "Train Number: " ++ py_str (field fields "TrainNumber" (JStr "N/A"))
           ++ nl ++ nl).
Proof. reflexivity. Qed.

Lemma get_train_schedule_first_ten key net train_number sent fields route :
  is_set key = true ->
  net sent (rail_get (INDIAN_RAIL_BASE_URL ++ "/TrainSchedule/apikey/"
                        ++ env_str key ++ "/TrainNumber/" ++ train_number))
  = inr (JDict fields) ->
  lists fields "Route" route ->
  snd (get_train_schedule_indian_rail key net train_number sent)
  = let! heading := train_heading train_number (JDict fields) in
    let! chunks := for_each (route_lines EmptyString) (firstn 10 route) in
    Ret ((heading ++ "Schedule:" ++ nl) ++ join EmptyString chunks).
Proof.
  intros Hkey Hnet Hlists.
  destruct (lists_truthy _ _ _ Hlists) as (Herror & Hfound & Hget & Htruthy).
  unfold get_train_schedule_indian_rail. rewrite Hkey. cbv beta iota zeta delta [negb].
  run_rail. rewrite Hnet, snd_lift. cbn [body_or_error].
  rewrite Herror. cbn [obind]. rewrite Hfound. cbn [obind].
  rewrite train_heading_dict. cbn [obind]. rewrite Hget.
  cbn [isinstance_list andb py_slice py_iter obind].
  apply for_acc_chunks, route_lines_appends.
Qed.

Lemma get_all_trains_first_fifteen upper key net station_code sent fields trains :
  is_set key = true ->
  net sent (rail_get (INDIAN_RAIL_BASE_URL ++ "/AllTrainOnStation/apikey/"
                        ++ env_str key ++ "/StationCode/" ++ upper station_code))
  = inr (JDict fields) ->
  lists fields "Trains" trains ->
  snd (get_all_trains_on_station upper key net station_code sent)
  = let! chunks := for_each (train_lines EmptyString) (firstn 15 trains) in
    Ret (("Trains at station " ++ upper station_code ++ ":" ++ nl)
           ++ join EmptyString chunks).
Proof.
  intros Hkey Hnet Hlists.
  destruct (lists_truthy _ _ _ Hlists) as (Herror & Hfound & Hget & Htruthy).
  unfold get_all_trains_on_station. rewrite Hkey. cbv beta iota zeta delta [negb].
  run_rail. rewrite Hnet, snd_lift. cbn [body_or_error].
  rewrite Herror. cbn [obind]. rewrite Hfound. cbn [obind]. rewrite Hget. cbn [obind].
  rewrite Htruthy. cbn [py_slice py_iter obind].
  apply for_acc_chunks, train_lines_appends.
Qed.

(** C10: the tools without a limit cut the list the upstream returned at
    a fixed count.  Whenever the answer carries a list, the outcome of
    [get_forecast] is the rendering of its first 5 periods, that of
    [station_name_to_code] of the first 5 stations, that of
    [get_train_schedule_indian_rail] of the first 10 stops of the route and
    that of [get_all_trains_on_station] of the first 15 trains: later items
    are never looked at, and at most 5, 5, 10 and 15 entries are rendered. *)
Theorem fixed_truncation_counts :
  (forall net latitude longitude sent
          points_data properties forecast_url forecast_data properties' periods,
      net sent (nws_get (NWS_API_BASE ++ "/points/" ++ latitude ++ "," ++ longitude))
      = inr points_data ->
      py_getitem points_data "properties" = Ret properties ->
      py_getitem properties "forecast" = Ret (JStr forecast_url) ->
      net (sent ++ [nws_get (NWS_API_BASE ++ "/points/" ++ latitude ++ "," ++ longitude)])%list
          (nws_get forecast_url)
      = inr forecast_data ->
      py_getitem forecast_data "properties" = Ret properties' ->
      py_getitem properties' "periods" = Ret (JList periods) ->
      snd (get_forecast net latitude longitude sent)
      = (let! forecasts := for_each forecast (firstn 5 periods) in
         Ret (join separator forecasts))
      /\ (List.length (firstn 5 periods) <= 5)%nat)
  /\ (forall upper key net station_name sent fields stations,
         is_set key = true ->
         net sent (rail_get (INDIAN_RAIL_BASE_URL ++ "/StationNameToCode/apikey/"
                               ++ env_str key ++ "/StationName/" ++ upper station_name))
         = inr (JDict fields) ->
         lists fields "Station" stations ->
         snd (station_name_to_code upper key net station_name sent)
         = (let! chunks := for_each (station_lines EmptyString) (firstn 5 stations) in
            Ret (("Station codes found:" ++ nl) ++ join EmptyString chunks))
         /\ (List.length (firstn 5 stations) <= 5)%nat)
  /\ (forall key net train_number sent fields route,
         is_set key = true ->
         net sent (rail_get (INDIAN_RAIL_BASE_URL ++ "/TrainSchedule/apikey/"
                               ++ env_str key ++ "/TrainNumber/" ++ train_number))
         = inr (JDict fields) ->
         lists fields "Route" route ->
         snd (get_train_schedule_indian_rail key net train_number sent)
         = (let! heading := train_heading train_number (JDict fields) in
            let! chunks := for_each (route_lines EmptyString) (firstn 10 route) in
            Ret ((heading ++ "Schedule:" ++ nl) ++ join EmptyString chunks))
         /\ (List.length (firstn 10 route) <= 10)%nat)
  /\ (forall upper key net station_code sent fields trains,
         is_set key = true ->
         net sent (rail_get (INDIAN_RAIL_BASE_URL ++ "/AllTrainOnStation/apikey/"
                               ++ env_str key ++ "/StationCode/" ++ upper station_code))
         = inr (JDict fields) ->
         lists fields "Trains" trains ->
         snd (get_all_trains_on_station upper key net station_code sent)
         = (let! chunks := for_each (train_lines EmptyString) (firstn 15 trains) in
            Ret (("Trains at station " ++ upper station_code ++ ":" ++ nl)
                   ++ join EmptyString chunks))
         /\ (List.length (firstn 15 trains) <= 15)%nat).
Proof.
  repeat split; intros; try apply firstn_at_most.
  - eapply get_forecast_first_five; eassumption.
  - eapply station_name_to_code_first_five; eassumption.
  - eapply get_train_schedule_first_ten; eassumption.
  - eapply get_all_trains_first_fifteen; eassumption.
Qed.

Lemma fixed_truncation_counts_witness :
  snd (get_forecast sample_weather "39.7456" "-97.0892" [])
  = (let! forecasts := for_each forecast (firstn 5 sample_periods) in
     Ret (join separator forecasts))
  /\ List.length sample_periods = 6%nat
  /\ (List.length (firstn 5 sample_periods) <= 5)%nat.
Proof.
  destruct (proj1 fixed_truncation_counts sample_weather "39.7456" "-97.0892" []
              _ _ _ _ _ sample_periods eq_refl eq_refl eq_refl eq_refl eq_refl eq_refl)
    as [Hrun Hlen].
  split; [exact Hrun|split; [reflexivity|exact Hlen]].
Defined.

(* ================================================================= *)
(** ** Absent data *)

Lemma getitem_truthy data key value :
  py_getitem data key = Ret value -> truthy data = true.
Proof.
  destruct data; try discriminate. destruct fields; [discriminate|reflexivity].
Qed.

Lemma first_call_absent upper key token net c sent e :
  (is_rail c = true -> is_set key = true) ->
  first_data upper key token net c sent = absent_data c e ->
  run upper key token net c sent
  = ((sent ++ [first_request upper key token c])%list, Ret (absence_text c e)).
Proof.
  intros Hkey Hdata. unfold first_data, absent_data in Hdata.
  destruct c as [state|latitude longitude|username|owner repo|t limit|name|number|code];
    cbn [is_rail run first_request absence_text] in Hdata |- *.
  - unfold get_alerts. run_nws. now rewrite Hdata.
  - unfold get_forecast. run_nws. now rewrite Hdata.
  - unfold get_github_user. run_github. now rewrite Hdata.
  - unfold get_github_repo_info. run_github. now rewrite Hdata.
  - destruct t; cbn [run_list_tool list_url] in Hdata |- *.
    + unfold get_github_repos. run_github. now rewrite Hdata.
    + unfold search_github_repos. run_github. now rewrite Hdata.
    + unfold get_github_issues. run_github.
      replace (if negb (allowed_state state) then "open" else state)
        with (if allowed_state state then state else "open")
        by now destruct (allowed_state state).
      now rewrite Hdata.
    + unfold get_github_commits. run_github. now rewrite Hdata.
  - unfold station_name_to_code. rewrite (Hkey eq_refl). cbv beta iota zeta delta [negb].
    run_rail. now rewrite Hdata.
  - unfold get_train_schedule_indian_rail. rewrite (Hkey eq_refl). cbv beta iota zeta delta [negb].
    run_rail. now rewrite Hdata.
  - unfold get_all_trains_on_station. rewrite (Hkey eq_refl). cbv beta iota zeta delta [negb].
    run_rail. now rewrite Hdata.
Qed.

Lemma second_call_absent upper net latitude longitude sent properties forecast_url :
  py_getitem (first_data upper None None net (GetForecast latitude longitude) sent) "properties"
  = Ret properties ->
  py_getitem properties "forecast" = Ret forecast_url ->
  snd (make_nws_request net forecast_url
         (sent ++ [first_request upper None None (GetForecast latitude longitude)])%list)
  = Ret JNone ->
  snd (get_forecast net latitude longitude sent) = Ret "Unable to fetch detailed forecast.".
Proof.
  unfold first_data. cbn [is_rail first_request]. intros Hprops Hurl Hnone.
  unfold get_forecast. run_nws.
  rewrite (getitem_truthy _ _ _ Hprops). cbn [negb].
  unfold bind at 1. unfold lift at 1. rewrite Hprops. cbn [obind]. rewrite Hurl.
  unfold bind.
  destruct (make_nws_request net forecast_url _) as [sent' [data|e]];
    cbn [snd] in Hnone; [|discriminate].
  inversion Hnone; subst data. reflexivity.
Qed.

(** C4, as it stands, fails for the rail tools: what they return on the
    value [{"error": ...}] of [fetch_data] is not a fixed string, it ends in
    the text of the error. *)
Lemma rail_error_text_is_not_fixed :
  snd (station_name_to_code ascii_upper (Some "k3y") (fun _ _ => inl "timed out") "delhi" [])
  = Ret "Error fetching station code: timed out"
  /\ snd (station_name_to_code ascii_upper (Some "k3y") (fun _ _ => inl "connection refused")
            "delhi" [])
     = Ret "Error fetching station code: connection refused"
  /\ snd (station_name_to_code ascii_upper (Some "k3y") (fun _ _ => inl "timed out") "delhi" [])
     <> snd (station_name_to_code ascii_upper (Some "k3y") (fun _ _ => inl "connection refused")
               "delhi" []).
Proof. repeat split. vm_compute. discriminate. Qed.

(** C4, amended: when the helper of a call returns its absent-data value
    ([None] from [make_nws_request] and [make_github_request],
    [{"error": e}] from [fetch_data]), the call sends nothing more, raises
    nothing and returns a text: the fixed message of the tool for the
    weather and GitHub tools (it names only the arguments of the call), and
    for the rail tools the fixed prefix ["Error fetching ...: "] followed by
    the error text [e].  The same holds when the second request of
    [get_forecast] gives [None]. *)
Theorem absent_data_gives_text :
  (forall upper key token net c sent e,
      (is_rail c = true -> is_set key = true) ->
      first_data upper key token net c sent = absent_data c e ->
      run upper key token net c sent
      = ((sent ++ [first_request upper key token c])%list, Ret (absence_text c e)))
  /\ (forall upper net latitude longitude sent properties forecast_url,
         py_getitem (first_data upper None None net (GetForecast latitude longitude) sent)
           "properties"
         = Ret properties ->
         py_getitem properties "forecast" = Ret forecast_url ->
         snd (make_nws_request net forecast_url
                (sent ++ [first_request upper None None (GetForecast latitude longitude)])%list)
         = Ret JNone ->
         snd (get_forecast net latitude longitude sent)
         = Ret "Unable to fetch detailed forecast.").
Proof.
  split.
  - exact first_call_absent.
  - exact second_call_absent.
Qed.

Lemma absent_data_gives_text_witness :
  run ascii_upper (Some "k3y") None (fun _ _ => inl "timed out") (GetAllTrainsOnStation "ndls") []
  = ([rail_get "https://indianrailapi.com/api/v2/AllTrainOnStation/apikey/k3y/StationCode/NDLS"],
     Ret "Error fetching trains for station: timed out")
  /\ run ascii_upper (Some "k3y") None (fun _ _ => inl "timed out") (GetGithubUser "octocat") []
     = ([github_get None "https://api.github.com/users/octocat"],
        Ret "Unable to fetch user information for octocat").
Proof.
  split.
  - exact (proj1 absent_data_gives_text ascii_upper (Some "k3y") None (fun _ _ => inl "timed out")
             (GetAllTrainsOnStation "ndls") [] "timed out" (fun _ => eq_refl) eq_refl).
  - exact (proj1 absent_data_gives_text ascii_upper (Some "k3y") None (fun _ _ => inl "timed out")
             (GetGithubUser "octocat") [] EmptyString
             (fun H : false = true => False_ind _ (Bool.diff_false_true H)) eq_refl).
Defined.

(* ================================================================= *)
(** ** Placeholders for absent fields *)

Lemma field_none fields k d : lookup k fields = None -> field fields k d = d.
Proof. unfold field. now intros ->. Qed.

Lemma field_some fields k d x : lookup k fields = Some x -> field fields k d = x.
Proof. unfold field. now intros ->. Qed.

(** The accessor with a default gives the default for an absent key. *)
Lemma py_get_absent fields k d :
  lookup k fields = None -> py_get (JDict fields) k d = Ret d.
Proof. intros H. unfold py_get. now rewrite field_none. Qed.

Ltac use_lookups :=
  repeat match goal with
  | E : lookup ?k ?f = None |- context [field ?f ?k ?d] => rewrite (field_none f k d E)
  | E : lookup ?k ?f = Some ?x |- context [field ?f ?k ?d] => rewrite (field_some f k d x E)
  end.

(** *** Every renderer returns its layout *)

Ltac lay_out :=
  cbn [render template fill seg_text value_at firstn app line
       alert_template user_template repo_template repository_template repository_head
       repository_tail search_template issue_template commit_template station_template
       heading_template route_template train_template
       format_alert feature_of py_getitem lookup String.eqb Ascii.eqb Bool.eqb
       user_info repo_info repository_info search_repo_info issue_info commit_info
       station_lines train_heading route_lines train_lines py_get obind text_of].

Ltac settle :=
  repeat (first
            [ match goal with
              | |- context [if truthy ?v then _ else _] => destruct (truthy v)
              end
            | match goal with
              | |- context [obind ?o _] =>
                  lazymatch o with
                  | Ret _ => fail
                  | Raise _ => fail
                  | obind _ _ => fail
                  | _ => destruct o
                  end
              end ];
          cbn [obind text_of]).

Lemma render_layout r record :
  text_of (render r record) = text_of (fill record (template r)).
Proof.
  destruct r; destruct record as [|b|n|x|s|items|fields]; try reflexivity; lay_out;
    settle; rewrite ?append_assoc; reflexivity.
Qed.

(** *** What a layout gives for an absent field *)

Lemma fill_app record before seg after :
  fill record (before ++ seg :: after)%list
  = (let! a := fill record before in
     let! text := seg_text record seg in
     let! b := fill record after in
     Ret (a ++ text ++ b)).
Proof.
  induction before as [|x before IH]; cbn [app fill obind].
  - reflexivity.
  - rewrite IH. destruct (seg_text record x); cbn [obind]; [|reflexivity].
    destruct (fill record before); cbn [obind]; [|reflexivity].
    destruct (seg_text record seg); cbn [obind]; [|reflexivity].
    destruct (fill record after); cbn [obind]; [|reflexivity].
    now rewrite append_assoc.
Qed.








(** *** The message of a commit *)

Lemma take_all n s : (String.length s <= n)%nat -> take n s = s.
Proof.
  revert n. induction s as [|c s IH]; intros [|n] H; simpl in *; try reflexivity; try lia.
  f_equal. apply IH. lia.
Qed.







(* ================================================================= *)
(** ** When a tool returns a text *)

Lemma for_each_total {A B : Type} (ok : A -> bool) (body : A -> outcome B) l :
  (forall x, ok x = true -> exists y, body x = Ret y) ->
  forallb ok l = true ->
  exists ys, for_each body l = Ret ys.
Proof.
  intros Hbody. induction l as [|x l IH]; cbn [forallb for_each]; intros Hall.
  - eexists; reflexivity.
  - apply andb_true_iff in Hall. destruct Hall as [Hx Hl].
    destruct (Hbody x Hx) as [y ->]. destruct (IH Hl) as [ys ->].
    eexists; reflexivity.
Qed.

Lemma for_acc_total {A : Type} (ok : A -> bool) (body : string -> A -> outcome string) l :
  (forall acc x, ok x = true -> exists acc', body acc x = Ret acc') ->
  forallb ok l = true ->
  forall acc, exists result, for_acc body acc l = Ret result.
Proof.
  intros Hbody. induction l as [|x l IH]; cbn [forallb for_acc]; intros Hall acc.
  - eexists; reflexivity.
  - apply andb_true_iff in Hall. destruct Hall as [Hx Hl].
    destruct (Hbody acc x Hx) as [acc' ->]. cbn [obind]. now apply IH.
Qed.

Ltac dict_total :=
  let x := fresh "x" in
  let H := fresh "H" in
  intros x H; destruct x; try discriminate H; eexists; reflexivity.

Lemma repo_info_total : forall x, is_dict x = true -> exists y, repo_info x = Ret y.
Proof. dict_total. Qed.

Lemma search_repo_info_total :
  forall x, is_dict x = true -> exists y, search_repo_info x = Ret y.
Proof. dict_total. Qed.

Lemma station_lines_total acc :
  forall x, is_dict x = true -> exists y, station_lines acc x = Ret y.
Proof. dict_total. Qed.

Lemma route_lines_total acc :
  forall x, is_dict x = true -> exists y, route_lines acc x = Ret y.
Proof. dict_total. Qed.

Lemma train_lines_total acc :
  forall x, is_dict x = true -> exists y, train_lines acc x = Ret y.
Proof. dict_total. Qed.

Lemma format_alert_total :
  forall x, alert_shaped x = true -> exists y, format_alert x = Ret y.
Proof.
  intros [| | | | | |fields] H; try discriminate H. cbn [alert_shaped dict_with] in H.
  unfold format_alert. cbn [py_getitem].
  destruct (lookup "properties" fields) as [props|]; [|discriminate H].
  destruct props; try discriminate H. eexists; reflexivity.
Qed.

Lemma forecast_total :
  forall x, period_shaped x = true -> exists y, forecast x = Ret y.
Proof.
  intros [| | | | | |fields] H; try discriminate H.
  cbn [period_shaped dict_with forallb] in H. unfold has_key in H.
  unfold forecast. cbn [py_getitem].
  repeat match type of H with
         | context [lookup ?k fields] =>
             destruct (lookup k fields); [|discriminate H]; cbn [andb obind] in H |- *
         end.
  eexists; reflexivity.
Qed.

Lemma label_names_total labels :
  forallb label_shaped labels = true ->
  exists names,
    (let! found := for_each (fun label => py_getitem label "name") labels in
     py_join ", " found) = Ret names.
Proof.
  intros Hall.
  assert (H : exists found parts,
             for_each (fun label => py_getitem label "name") labels = Ret found
             /\ for_each (fun v => match v with JStr s => Ret s | _ => Raise TypeError end)
                  found = Ret parts).
  { induction labels as [|label labels IH]; cbn [forallb for_each] in Hall |- *.
    - exists [], []. split; reflexivity.
    - apply andb_true_iff in Hall. destruct Hall as [Hlabel Hrest].
      destruct (IH Hrest) as (found & parts & -> & Hparts).
      destruct label; try discriminate Hlabel.
      cbn [label_shaped dict_with] in Hlabel. cbn [py_getitem].
      destruct (lookup "name" fields) as [name|]; [|discriminate Hlabel].
      destruct name; try discriminate Hlabel.
      eexists; eexists. split; [reflexivity|].
      cbn [for_each obind]. rewrite Hparts. reflexivity. }
  destruct H as (found & parts & -> & Hparts).
  unfold py_join. cbn [obind]. rewrite Hparts. eexists; reflexivity.
Qed.

Lemma issue_info_total :
  forall x, issue_shaped x = true -> exists y, issue_info x = Ret y.
Proof.
  intros [| | | | | |fields] H; try discriminate H.
  cbn [issue_shaped dict_with] in H. apply andb_true_iff in H. destruct H as [Hlabels Huser].
  unfold issue_info. cbn [py_get obind].
  destruct (lookup "labels" fields) as [labels|] eqn:El;
    destruct (lookup "user" fields) as [user|] eqn:Eu;
    use_lookups; cbn [absent_or] in Hlabels, Huser;
    try (destruct user; try discriminate Huser);
    try (destruct labels; try discriminate Hlabels;
         cbn [list_of] in Hlabels;
         destruct (label_names_total _ Hlabels) as [names Hnames];
         cbn [py_iter obind];
         destruct (for_each _ items) as [found|]; [|discriminate Hnames];
         cbn [obind] in Hnames |- *; rewrite Hnames);
    eexists; reflexivity.
Qed.

Lemma commit_info_total :
  forall x, commit_shaped x = true -> exists y, commit_info x = Ret y.
Proof.
  intros [| | | | | |fields] H; try discriminate H.
  cbn [commit_shaped dict_with] in H. apply andb_true_iff in H. destruct H as [Hsha Hcommit].
  unfold commit_info. cbn [py_get obind].
  destruct (lookup "sha" fields) as [sha|] eqn:Es;
    destruct (lookup "commit" fields) as [inner|] eqn:Ec;
    use_lookups; cbn [absent_or] in Hsha, Hcommit;
    try (destruct sha; try discriminate Hsha);
    try (destruct inner as [| | | | | |inner]; try discriminate Hcommit;
         cbn [dict_with] in Hcommit; apply andb_true_iff in Hcommit;
         destruct Hcommit as [Hmessage Hauthor];
         cbn [py_get obind py_slice];
         destruct (lookup "message" inner) as [message|] eqn:Em;
         destruct (lookup "author" inner) as [author|] eqn:Ea;
         use_lookups; cbn [absent_or] in Hmessage, Hauthor;
         try (destruct message; try discriminate Hmessage);
         try (destruct author; try discriminate Hauthor));
    eexists; reflexivity.
Qed.

Ltac falsy_or_cases H D :=
  unfold falsy_or in H;
  let Ht := fresh "Htruthy" in
  destruct (truthy D) eqn:Ht; cbn [negb orb] in H |- *.

Lemma get_alerts_total upper net state sent :
  shaped (GetAlerts state) (first_data upper None None net (GetAlerts state) sent) = true ->
  exists text, snd (get_alerts net state sent) = Ret text.
Proof.
  unfold first_data. cbn [is_rail first_request shaped]. intros H.
  unfold get_alerts. run_nws. rewrite snd_lift. unfold missing.
  set (data := body_or_none _) in *. falsy_or_cases H data.
  - destruct data as [| | | | | |fields]; try discriminate H.
    cbn [dict_with negb py_contains py_getitem obind] in H |- *.
    destruct (lookup "features" fields) as [features|]; [|eexists; reflexivity].
    cbn [absent_or negb obind] in H |- *. falsy_or_cases H features.
    + destruct features; try discriminate H. cbn [list_of py_iter obind] in H |- *.
      destruct (for_each_total _ _ _ format_alert_total H) as [alerts ->].
      eexists; reflexivity.
    + eexists; reflexivity.
  - eexists; reflexivity.
Qed.

Lemma get_forecast_total upper net latitude longitude sent :
  shaped (GetForecast latitude longitude)
    (first_data upper None None net (GetForecast latitude longitude) sent) = true ->
  (forall r,
      forecast_shaped
        (body_or_none (net (sent ++ [first_request upper None None
                                       (GetForecast latitude longitude)])%list r))
      = true) ->
  exists text, snd (get_forecast net latitude longitude sent) = Ret text.
Proof.
  unfold first_data. cbn [is_rail first_request shaped]. intros H Hsecond.
  unfold get_forecast. run_nws.
  set (data := body_or_none _) in *. falsy_or_cases H data; [|eexists; reflexivity].
  cbn [negb].
  destruct data as [| | | | | |fields]; try discriminate H.
  cbn [dict_with] in H. unfold bind at 1. unfold lift at 1. cbn [py_getitem].
  destruct (lookup "properties" fields) as [props|]; [|discriminate H].
  destruct props as [| | | | | |props]; try discriminate H.
  cbn [dict_with obind py_getitem] in H |- *. unfold has_key in H.
  destruct (lookup "forecast" props) as [forecast_url|]; [|discriminate H].
  assert (Hrequest :
            (exists u, forecast_url = JStr u)
            \/ make_nws_request net forecast_url
                 (sent ++ [nws_get (NWS_API_BASE ++ "/points/" ++ latitude ++ "," ++ longitude)])%list
               = ((sent ++ [nws_get (NWS_API_BASE ++ "/points/" ++ latitude ++ ","
                                       ++ longitude)])%list, Ret JNone)).
  { destruct forecast_url; try (right; reflexivity). left. eexists; reflexivity. }
  destruct Hrequest as [[u ->]|Hnone].
  - run_nws. specialize (Hsecond (nws_get u)).
    set (forecast_data := body_or_none _) in *. unfold forecast_shaped in Hsecond.
    falsy_or_cases Hsecond forecast_data; [|eexists; reflexivity].
    cbn [negb]. rewrite snd_lift.
    destruct forecast_data as [| | | | | |outer]; try discriminate Hsecond.
    cbn [dict_with py_getitem] in Hsecond |- *.
    destruct (lookup "properties" outer) as [inner|]; [|discriminate Hsecond].
    destruct inner as [| | | | | |inner]; try discriminate Hsecond.
    cbn [dict_with obind py_getitem] in Hsecond |- *.
    destruct (lookup "periods" inner) as [periods|]; [|discriminate Hsecond].
    destruct periods; try discriminate Hsecond. cbn [obind py_slice py_iter].
    destruct (for_each_total _ _ _ forecast_total Hsecond) as [forecasts ->].
    eexists; reflexivity.
  - erewrite bind_run by exact Hnone. eexists; reflexivity.
Qed.

Lemma get_github_user_total upper token net username sent :
  shaped (GetGithubUser username)
    (first_data upper None token net (GetGithubUser username) sent) = true ->
  exists text, snd (get_github_user token net username sent) = Ret text.
Proof.
  unfold first_data. cbn [is_rail first_request shaped]. intros H.
  unfold get_github_user. run_github.
  set (data := body_or_none _) in *. falsy_or_cases H data; [|eexists; reflexivity].
  destruct data; try discriminate H. eexists; reflexivity.
Qed.

Lemma get_github_repo_info_total upper token net owner repo sent :
  shaped (GetGithubRepoInfo owner repo)
    (first_data upper None token net (GetGithubRepoInfo owner repo) sent) = true ->
  exists text, snd (get_github_repo_info token net owner repo sent) = Ret text.
Proof.
  unfold first_data. cbn [is_rail first_request shaped]. intros H.
  unfold get_github_repo_info. run_github.
  set (data := body_or_none _) in *. falsy_or_cases H data; [|eexists; reflexivity].
  destruct data as [| | | | | |fields]; try discriminate H.
  cbn [dict_with] in H. rewrite snd_lift. unfold repository_info. cbn [py_get obind].
  destruct (lookup "license" fields) as [license|] eqn:El; use_lookups;
    cbn [absent_or truthy obind] in H |- *; [|eexists; reflexivity].
  falsy_or_cases H license; [|eexists; reflexivity].
  destruct license; try discriminate H. eexists; reflexivity.
Qed.

Lemma run_list_tool_total upper token net t limit sent :
  shaped (GithubList t limit) (first_data upper None token net (GithubList t limit) sent) = true ->
  exists text, snd (run_list_tool token net t limit sent) = Ret text.
Proof.
  unfold first_data. cbn [is_rail first_request]. intros H.
  destruct t; cbn [shaped list_url run_list_tool] in H |- *.
  - unfold get_github_repos. run_github.
    set (data := body_or_none _) in *. falsy_or_cases H data; [|eexists; reflexivity].
    destruct data; try discriminate H. cbn [list_of] in H. rewrite snd_lift.
    cbn [py_iter obind].
    destruct (for_each_total _ _ _ repo_info_total H) as [repos ->]. eexists; reflexivity.
  - unfold search_github_repos. run_github. rewrite snd_lift. unfold missing.
    set (data := body_or_none _) in *. falsy_or_cases H data; [|eexists; reflexivity].
    destruct data as [| | | | | |fields]; try discriminate H.
    cbn [dict_with negb py_contains py_getitem obind] in H |- *.
    destruct (lookup "items" fields) as [items|]; [|eexists; reflexivity].
    cbn [absent_or negb obind] in H |- *.
    destruct items; try discriminate H. cbn [list_of py_iter obind] in H |- *.
    destruct (for_each_total _ _ _ search_repo_info_total H) as [repos ->].
    eexists; reflexivity.
  - unfold get_github_issues. run_github.
    replace (if negb (allowed_state state) then "open" else state)
      with (if allowed_state state then state else "open")
      by now destruct (allowed_state state).
    set (data := body_or_none _) in *. falsy_or_cases H data; [|eexists; reflexivity].
    destruct data; try discriminate H. cbn [list_of] in H. rewrite snd_lift.
    cbn [py_iter obind].
    destruct (for_each_total _ _ _ issue_info_total H) as [issues ->]. eexists; reflexivity.
  - unfold get_github_commits. run_github.
    set (data := body_or_none _) in *. falsy_or_cases H data; [|eexists; reflexivity].
    destruct data; try discriminate H. cbn [list_of] in H. rewrite snd_lift.
    cbn [py_iter obind].
    destruct (for_each_total _ _ _ commit_info_total H) as [commits ->]. eexists; reflexivity.
Qed.

Ltac rail_start key Hkey :=
  destruct (is_set key) eqn:Hkey; cbv beta iota zeta delta [negb];
  [run_rail; rewrite snd_lift|eexists; reflexivity].

Ltac rail_error fields :=
  let Eerror := fresh "Eerror" in
  cbn [py_contains py_getitem obind];
  destruct (lookup "error" fields) eqn:Eerror; cbn [obind]; [eexists; reflexivity|];
  unfold found; cbn [py_get obind];
  destruct (eq_int (field fields "ResponseCode" JNone) 200); cbn [obind];
  [|eexists; reflexivity].

Lemma station_name_to_code_total upper key net station_name sent :
  shaped (StationNameToCode station_name)
    (first_data upper key None net (StationNameToCode station_name) sent) = true ->
  exists text, snd (station_name_to_code upper key net station_name sent) = Ret text.
Proof.
  unfold first_data. cbn [is_rail first_request shaped]. intros H.
  unfold station_name_to_code. rail_start key Hkey.
  set (data := body_or_error _) in *.
  destruct data as [| | | | | |fields]; try discriminate H. cbn [dict_with] in H.
  rail_error fields.
  destruct (lookup "Station" fields) as [stations|] eqn:Estations; use_lookups;
    cbn [absent_or truthy obind] in H |- *; [|eexists; reflexivity].
  destruct (truthy stations) eqn:Htruthy; cbn [obind]; [|eexists; reflexivity].
  destruct stations; cbn [isinstance_list andb]; try (eexists; reflexivity).
  cbn [py_slice py_iter obind].
  apply (for_acc_total is_dict); [intros; now apply station_lines_total|exact H].
Qed.

Lemma get_train_schedule_total upper key net train_number sent :
  shaped (GetTrainSchedule train_number)
    (first_data upper key None net (GetTrainSchedule train_number) sent) = true ->
  exists text, snd (get_train_schedule_indian_rail key net train_number sent) = Ret text.
Proof.
  unfold first_data. cbn [is_rail first_request shaped]. intros H.
  unfold get_train_schedule_indian_rail. rail_start key Hkey.
  set (data := body_or_error _) in *.
  destruct data as [| | | | | |fields]; try discriminate H. cbn [dict_with] in H.
  rail_error fields.
  destruct (lookup "Route" fields) as [route|] eqn:Eroute; use_lookups;
    cbn [absent_or truthy obind] in H |- *; [|eexists; reflexivity].
  destruct (truthy route) eqn:Htruthy; cbn [obind]; [|eexists; reflexivity].
  rewrite train_heading_dict. cbn [obind py_getitem].
  destruct route; cbn [isinstance_list]; try (eexists; reflexivity).
  cbn [py_slice py_iter obind].
  apply (for_acc_total is_dict); [intros; now apply route_lines_total|exact H].
Qed.

Lemma get_all_trains_total upper key net station_code sent :
  shaped (GetAllTrainsOnStation station_code)
    (first_data upper key None net (GetAllTrainsOnStation station_code) sent) = true ->
  exists text, snd (get_all_trains_on_station upper key net station_code sent) = Ret text.
Proof.
  unfold first_data. cbn [is_rail first_request shaped]. intros H.
  unfold get_all_trains_on_station. rail_start key Hkey.
  set (data := body_or_error _) in *.
  destruct data as [| | | | | |fields]; try discriminate H. cbn [dict_with] in H.
  rail_error fields.
  destruct (lookup "Trains" fields) as [trains|] eqn:Etrains; use_lookups;
    cbn [absent_or truthy obind] in H |- *; [|eexists; reflexivity].
  falsy_or_cases H trains; cbn [obind]; [|eexists; reflexivity].
  destruct trains; try discriminate H. cbn [isinstance_list andb dicts_at_front] in H.
  cbn [py_slice py_iter obind].
  apply (for_acc_total is_dict); [intros; now apply train_lines_total|exact H].
Qed.

(** C2, as it stands, fails: nothing in the catalog catches an exception,
    and an answer that lacks a key a tool indexes, or is not the container
    the tool takes it for, raises out of the tool. *)
Lemma faults_escape_the_catalog :
  snd (get_forecast (fun _ _ => inr (JDict [("properties", JDict [("gridId", JStr "TOP")])]))
         "39.7456" "-97.0892" [])
  = Raise (KeyError "forecast")
  /\ snd (get_alerts (fun _ _ => inr (JDict [("features", JList [JDict [("id", JStr "a1")]])]))
            "CA" [])
     = Raise (KeyError "properties")
  /\ snd (get_github_user None (fun _ _ => inr (JList [JInt 1])) "octocat" [])
     = Raise AttributeError
  /\ snd (station_name_to_code ascii_upper (Some "k3y") (fun _ _ => inr (JInt 7)) "delhi" [])
     = Raise TypeError.
Proof. repeat split. Qed.

(** C2, amended: a call of a tool of the catalog returns a single text,
    and raises nothing, whenever the data its helper returns have the shape
    the tool reads: the absent-data value (for the weather and GitHub tools
    any empty value), or the dicts and lists the tool indexes, iterates and
    calls [get] on, with the keys it indexes directly
    (["properties"] of an alert feature; ["properties"]["forecast"],
    ["properties"]["periods"] and the six keys of a period for
    [get_forecast]; ["name"] of a label).  The catalog catches no exception:
    on other answers a [KeyError], [TypeError] or [AttributeError] leaves
    the tool. *)
Theorem shaped_answers_give_text :
  forall upper key token net c sent,
    shaped c (first_data upper key token net c sent) = true ->
    (two_requests c = true ->
     forall r,
       forecast_shaped
         (body_or_none (net (sent ++ [first_request upper key token c])%list r)) = true) ->
    exists text, snd (run upper key token net c sent) = Ret text.
Proof.
  intros upper key token net c sent Hfirst Hsecond.
  destruct c as [state|latitude longitude|username|owner repo|t limit|name|number|code];
    cbn [run].
  - now apply (get_alerts_total upper).
  - apply (get_forecast_total upper); [exact Hfirst|exact (Hsecond eq_refl)].
  - now apply (get_github_user_total upper).
  - now apply (get_github_repo_info_total upper).
  - now apply (run_list_tool_total upper).
  - now apply station_name_to_code_total.
  - now apply (get_train_schedule_total upper).
  - now apply get_all_trains_total.
Qed.

Lemma shaped_answers_give_text_witness :
  exists text,
    snd (run ascii_upper None None sample_weather (GetForecast "39.7456" "-97.0892") []) = Ret text.
Proof.
  apply (shaped_answers_give_text ascii_upper None None sample_weather
           (GetForecast "39.7456" "-97.0892") []).
  - reflexivity.
  - intros _ r. reflexivity.
Defined.

(* ================================================================= *)
(** ** What a call sends *)

Lemma if_ret_lift_frame {A : Type} (b : bool) (a : A) (o : outcome A) sent sent' :
  (if b then ret a else lift o) sent = (sent, snd ((if b then ret a else lift o) sent')).
Proof. now destruct b. Qed.

Lemma lift_frame {A : Type} (o : outcome A) sent sent' :
  lift o sent = (sent, snd (lift o sent')).
Proof. reflexivity. Qed.

(** A tool other than [get_forecast] sends its one request and computes
    its result from the answer alone. *)
Lemma run_single upper key token net c sent :
  two_requests c = false ->
  (is_rail c = true -> is_set key = true) ->
  run upper key token net c sent
  = ((sent ++ [first_request upper key token c])%list,
     snd (run upper key token (answered (net sent (first_request upper key token c))) c [])).
Proof.
  intros Hone Hkey.
  destruct c as [state|latitude longitude|username|owner repo|t limit|name|number|code];
    try discriminate Hone; cbn [run first_request].
  - unfold get_alerts. run_nws. run_nws. apply lift_frame.
  - unfold get_github_user. run_github. run_github. apply if_ret_lift_frame.
  - unfold get_github_repo_info. run_github. run_github. apply if_ret_lift_frame.
  - destruct t; cbn [run_list_tool list_url].
    + unfold get_github_repos. run_github. run_github. apply if_ret_lift_frame.
    + unfold search_github_repos. run_github. run_github. apply lift_frame.
    + unfold get_github_issues.
      replace (if negb (allowed_state state) then "open" else state)
        with (if allowed_state state then state else "open")
        by now destruct (allowed_state state).
      run_github. run_github. apply if_ret_lift_frame.
    + unfold get_github_commits. run_github. run_github. apply if_ret_lift_frame.
  - unfold station_name_to_code. rewrite (Hkey eq_refl). cbv beta iota zeta delta [negb].
    run_rail. run_rail. apply lift_frame.
  - unfold get_train_schedule_indian_rail. rewrite (Hkey eq_refl).
    cbv beta iota zeta delta [negb]. run_rail. run_rail. apply lift_frame.
  - unfold get_all_trains_on_station. rewrite (Hkey eq_refl).
    cbv beta iota zeta delta [negb]. run_rail. run_rail. apply lift_frame.
Qed.

Lemma run_unconfigured upper key token net c sent :
  is_rail c = true -> is_set key = false ->
  run upper key token net c sent = (sent, Ret "Indian Rail API key not configured").
Proof.
  intros Hrail Hkey.
  destruct c; try discriminate Hrail; cbn [run];
    [unfold station_name_to_code|unfold get_train_schedule_indian_rail
    |unfold get_all_trains_on_station];
    now rewrite Hkey.
Qed.

(** [get_forecast] sends the points request and then, when the answer
    names a forecast URL, one request to that URL. *)
Lemma get_forecast_sends net latitude longitude sent :
  fst (get_forecast net latitude longitude sent)
  = (sent ++ nws_get (NWS_API_BASE ++ "/points/" ++ latitude ++ "," ++ longitude)
       :: match forecast_url_of
                  (body_or_none
                     (net sent (nws_get (NWS_API_BASE ++ "/points/" ++ latitude ++ ","
                                           ++ longitude)))) with
          | Some u => [nws_get u]
          | None => []
          end)%list.
Proof.
  unfold get_forecast, bind, lift, forecast_url_of.
  rewrite make_nws_request_run.
  set (first := nws_get _). set (data := body_or_none _).
  destruct (truthy data) eqn:Htruthy; cbn [negb].
  - destruct (py_getitem data "properties") as [properties|e]; cbn [obind];
      [|reflexivity].
    destruct (py_getitem properties "forecast") as [url|e]; [|reflexivity].
    destruct url as [| | | |u| |]; try reflexivity.
    rewrite make_nws_request_run, <- app_assoc. cbn [app].
    now destruct (negb _).
  - assert (H : py_getitem data "properties" = Raise TypeError
                \/ exists k, py_getitem data "properties" = Raise (KeyError k)).
    { destruct data as [| | | | | |fields]; try (left; reflexivity).
      destruct fields; [|discriminate Htruthy]. right. eexists. reflexivity. }
    destruct H as [->|[k ->]]; reflexivity.
Qed.

Lemma run_requests upper key token net c sent :
  exists new,
    fst (run upper key token net c sent) = (sent ++ new)%list
    /\ ((new = [] /\ is_rail c = true /\ is_set key = false)
        \/ new = [first_request upper key token c]
        \/ (two_requests c = true
            /\ exists u, new = [first_request upper key token c; nws_get u])).
Proof.
  destruct (two_requests c) eqn:Htwo.
  - destruct c; try discriminate Htwo. cbn [run first_request].
    rewrite get_forecast_sends.
    destruct (forecast_url_of _) as [u|].
    + eexists. split; [reflexivity|]. right. right. split; [reflexivity|].
      exists u. reflexivity.
    + eexists. split; [reflexivity|]. right. left. reflexivity.
  - assert (Hrun : is_set key = false /\ is_rail c = true
                   \/ (is_rail c = true -> is_set key = true)).
    { destruct (is_rail c); [|right; discriminate].
      destruct (is_set key); [right; reflexivity|left; split; reflexivity]. }
    destruct Hrun as [[Hkey Hrail]|Hkey].
    + rewrite run_unconfigured by assumption. exists []. split; [now rewrite app_nil_r|].
      left. repeat split; assumption.
    + rewrite (run_single upper key token net c sent Htwo Hkey).
      eexists. split; [reflexivity|]. right. left. reflexivity.
Qed.

(** X1: a call sends at most two requests.  A rail tool without its key
    sends none; every other tool but [get_forecast] sends exactly its one
    request; [get_forecast] sends its points request and at most one
    more. *)
Theorem a_call_sends_at_most_two_requests :
  forall upper key token net c sent,
  exists new,
    fst (run upper key token net c sent) = (sent ++ new)%list
    /\ (List.length new <= 2)%nat
    /\ (is_rail c = true -> is_set key = false -> new = [])
    /\ (two_requests c = false ->
        (is_rail c = true -> is_set key = true) ->
        new = [first_request upper key token c])
    /\ (two_requests c = true ->
        exists rest,
          new = first_request upper key token c :: rest /\ (List.length rest <= 1)%nat).
Proof.
  intros upper key token net c sent.
  destruct (two_requests c) eqn:Htwo.
  - destruct c; try discriminate Htwo. cbn [run first_request is_rail].
    rewrite get_forecast_sends.
    eexists. split; [reflexivity|].
    destruct (forecast_url_of _) as [u|]; cbn [List.length];
      (split; [lia|]); (split; [discriminate|]); (split; [discriminate|]);
      intros _; eexists; (split; [reflexivity|cbn [List.length]; lia]).
  - assert (Hrun : is_set key = false /\ is_rail c = true
                   \/ (is_rail c = true -> is_set key = true)).
    { destruct (is_rail c); [|right; discriminate].
      destruct (is_set key); [right; reflexivity|left; split; reflexivity]. }
    destruct Hrun as [[Hkey Hrail]|Hkey].
    + rewrite run_unconfigured by assumption. exists [].
      split; [now rewrite app_nil_r|]. split; [cbn [List.length]; lia|].
      split; [reflexivity|]. split; [|discriminate].
      intros _ H. specialize (H Hrail). congruence.
    + rewrite (run_single upper key token net c sent Htwo Hkey).
      eexists. split; [reflexivity|]. split; [cbn [List.length]; lia|].
      split; [|split; [reflexivity|discriminate]].
      intros Hrail Hunset. specialize (Hkey Hrail). congruence.
Qed.

(** X2: a tool other than [get_forecast], a rail tool having its key,
    reads the upstream once: its run is its one request, and the text or
    exception it ends with is what the same call gives on an upstream that
    answers everything with the answer to that request. *)
Theorem one_request_one_answer :
  forall upper key token net c sent,
    two_requests c = false ->
    (is_rail c = true -> is_set key = true) ->
    run upper key token net c sent
    = ((sent ++ [first_request upper key token c])%list,
       snd (run upper key token
              (answered (net sent (first_request upper key token c))) c [])).
Proof. exact run_single. Qed.

Lemma one_request_one_answer_witness :
  run ascii_upper None (Some "t0k3n") (answered (inr (JDict [("login", JStr "octocat")])))
    (GetGithubUser "octocat") []
  = ([github_get (Some "t0k3n") "https://api.github.com/users/octocat"],
     snd (run ascii_upper None (Some "t0k3n")
            (answered (inr (JDict [("login", JStr "octocat")])))
            (GetGithubUser "octocat") [])).
Proof.
  apply (one_request_one_answer ascii_upper None (Some "t0k3n")
           (answered (inr (JDict [("login", JStr "octocat")])))
           (GetGithubUser "octocat") []).
  - reflexivity.
  - discriminate.
Defined.

(** X3: [get_forecast] sends its second request exactly when the points
    answer names a forecast URL by a string under
    ["properties"]["forecast"], and then to that URL as it is, with the
    headers of the first request; otherwise the points request is the only
    one. *)
Theorem forecast_follows_the_upstream_url :
  forall net latitude longitude sent,
    fst (get_forecast net latitude longitude sent)
    = (sent ++ nws_get (NWS_API_BASE ++ "/points/" ++ latitude ++ "," ++ longitude)
         :: match forecast_url_of
                    (body_or_none
                       (net sent (nws_get (NWS_API_BASE ++ "/points/" ++ latitude ++ ","
                                             ++ longitude)))) with
            | Some u => [nws_get u]
            | None => []
            end)%list.
Proof. exact get_forecast_sends. Qed.

(** X4: the GitHub token goes to GitHub only.  Every request of a GitHub
    tool carries [Authorization: token <GITHUB_TOKEN>] when the token is
    set, and no request of any tool carries an [Authorization] header
    otherwise: not the weather requests, not the request to the URL a
    points answer names, not the rail requests. *)
Theorem authorization_goes_to_github_only :
  forall upper key token net c sent,
  exists new,
    fst (run upper key token net c sent) = (sent ++ new)%list
    /\ Forall (fun r => has_header "Authorization" r = is_github c && is_set token) new
    /\ (is_github c = true ->
        new = [first_request upper key token c]
        /\ (is_set token = true ->
            In ("Authorization", "token " ++ env_str token)
              (headers (first_request upper key token c)))).
Proof.
  intros upper key token net c sent.
  destruct (run_requests upper key token net c sent) as (new & Hrun & Hnew).
  exists new. split; [exact Hrun|].
  assert (Hfirst : has_header "Authorization" (first_request upper key token c)
                   = is_github c && is_set token).
  { destruct c as [| | | |t limit| | |]; try reflexivity;
      cbn [first_request is_github andb]; unfold github_get, has_header;
      cbn [headers]; destruct (is_set token); reflexivity. }
  split.
  - destruct Hnew as [(-> & _)|[->|(Htwo & u & ->)]].
    + constructor.
    + repeat constructor. exact Hfirst.
    + repeat constructor; [exact Hfirst|].
      destruct c; try discriminate Htwo. reflexivity.
  - intros Hgithub. split.
    + destruct Hnew as [(_ & Hrail & _)|[->|(Htwo & _)]];
        [destruct c; discriminate|reflexivity|destruct c; discriminate].
    + intros Htoken.
      destruct c as [| | | |t limit| | |]; try discriminate Hgithub;
        cbn [first_request]; unfold github_get; cbn [headers]; rewrite Htoken;
        cbn [In]; tauto.
Qed.

(* ================================================================= *)
(** ** Empty and partial answers *)

(** X6: the weather and GitHub tools take an empty answer for a failed
    request.  When the body is [null], [false], [0], an empty string, list
    or object, the tool returns its "unable" text as it does when the
    request fails: a user without repositories is reported as
    ["Unable to fetch repositories for ..."]. *)
Theorem empty_answers_read_as_failures :
  forall upper key token net c sent e,
    is_rail c = false ->
    truthy (first_data upper key token net c sent) = false ->
    run upper key token net c sent
    = ((sent ++ [first_request upper key token c])%list, Ret (absence_text c e)).
Proof.
  intros upper key token net c sent e Hrail Hdata. unfold first_data in Hdata.
  rewrite Hrail in Hdata.
  destruct c as [state|latitude longitude|username|owner repo|t limit|name|number|code];
    try discriminate Hrail; cbn [run first_request absence_text] in Hdata |- *.
  - unfold get_alerts, missing. run_nws. now rewrite Hdata.
  - unfold get_forecast. run_nws. now rewrite Hdata.
  - unfold get_github_user. run_github. now rewrite Hdata.
  - unfold get_github_repo_info. run_github. now rewrite Hdata.
  - destruct t; cbn [run_list_tool list_url] in Hdata |- *.
    + unfold get_github_repos. run_github. now rewrite Hdata.
    + unfold search_github_repos, missing. run_github. now rewrite Hdata.
    + unfold get_github_issues.
      replace (if negb (allowed_state state) then "open" else state)
        with (if allowed_state state then state else "open")
        by now destruct (allowed_state state).
      run_github. now rewrite Hdata.
    + unfold get_github_commits. run_github. now rewrite Hdata.
Qed.

Lemma empty_answers_read_as_failures_witness :
  run ascii_upper None None (answered (inr (JList []))) (GithubList (Repos "octocat") 10) []
  = ([github_get None "https://api.github.com/users/octocat/repos?sort=updated&per_page=10"],
     Ret "Unable to fetch repositories for octocat").
Proof.
  exact (empty_answers_read_as_failures ascii_upper None None (answered (inr (JList [])))
           (GithubList (Repos "octocat") 10) [] EmptyString eq_refl eq_refl).
Defined.

(** X7: an object without the list key reads as a failure too:
    [get_alerts] on an object without ["features"] and
    [search_github_repos] on an object without ["items"] return their
    "unable" text. *)
Theorem missing_list_key_reads_as_failure :
  forall token net sent fields,
    (forall state,
        net sent (nws_get (NWS_API_BASE ++ "/alerts/active/area/" ++ state))
        = inr (JDict fields) ->
        lookup "features" fields = None ->
        snd (get_alerts net state sent) = Ret "Unable to fetch alerts or no alerts found.")
    /\ (forall query limit,
           net sent (github_get token (list_url (Search query) limit)) = inr (JDict fields) ->
           lookup "items" fields = None ->
           snd (search_github_repos token net query limit sent)
           = Ret ("Unable to search repositories for query: " ++ query)).
Proof.
  intros token net sent fields. split.
  - intros state Hnet Hkey. unfold get_alerts, missing. run_nws. rewrite Hnet, snd_lift.
    cbn [body_or_none py_contains obind]. rewrite Hkey. now destruct (truthy _).
  - intros query limit Hnet Hkey. cbn [list_url] in Hnet.
    unfold search_github_repos, missing. run_github. rewrite Hnet, snd_lift.
    cbn [body_or_none py_contains obind]. rewrite Hkey. now destruct (truthy _).
Qed.

Lemma missing_list_key_reads_as_failure_witness :
  snd (get_alerts (answered (inr (JDict [("title", JStr "Not Found")]))) "ZZ" [])
  = Ret "Unable to fetch alerts or no alerts found.".
Proof.
  exact (proj1 (missing_list_key_reads_as_failure None
                  (answered (inr (JDict [("title", JStr "Not Found")]))) []
                  [("title", JStr "Not Found")])
           "ZZ" eq_refl eq_refl).
Defined.

(* ================================================================= *)
(** ** Answers of the rail upstream that list nothing *)

(** X8: a rail tool needs a non-empty key.  With the key unset or empty
    it returns the "not configured" text and sends nothing; with a key it
    sends exactly its one request. *)
Theorem rail_tools_need_a_key :
  forall upper key token net c sent,
    is_rail c = true ->
    ((key = None \/ key = Some EmptyString) ->
     run upper key token net c sent = (sent, Ret "Indian Rail API key not configured"))
    /\ (forall k, key = Some k -> k <> EmptyString ->
        fst (run upper key token net c sent) = (sent ++ [first_request upper key token c])%list).
Proof.
  intros upper key token net c sent Hrail. split.
  - intros Hkey. apply run_unconfigured; [exact Hrail|].
    destruct Hkey as [->| ->]; reflexivity.
  - intros k -> Hk.
    assert (Hset : is_set (Some k) = true).
    { cbn [is_set]. apply negb_true_iff, String.eqb_neq, Hk. }
    rewrite run_single; [reflexivity| |auto].
    destruct c; try discriminate Hrail; reflexivity.
Qed.

Lemma rail_tools_need_a_key_witness :
  run ascii_upper (Some EmptyString) None (answered (inl "unreachable"))
    (GetTrainSchedule "12301") []
  = ([], Ret "Indian Rail API key not configured").
Proof.
  apply (proj1 (rail_tools_need_a_key ascii_upper (Some EmptyString) None
                  (answered (inl "unreachable"))
                  (GetTrainSchedule "12301") [] eq_refl)).
  right. reflexivity.
Defined.

Ltac rail_answer Hkey Hnet :=
  rewrite Hkey; cbv beta iota zeta delta [negb]; run_rail;
  rewrite Hnet, snd_lift; cbn [body_or_error py_contains py_getitem obind].

(** X9: a rail tool lists something only for the response code 200 (the
    number: the string ["200"] does not count) and a non-empty value under
    its key, which for [station_name_to_code] must be a list.  Otherwise
    the answer is reported as nothing found, with the station name or code
    in ascii_upper case. *)
Theorem rail_answers_that_list_nothing :
  forall upper key token net c sent fields,
    is_rail c = true ->
    is_set key = true ->
    net sent (first_request upper key token c) = inr (JDict fields) ->
    lookup "error" fields = None ->
    (eq_int (field fields "ResponseCode" JNone) 200 = false
     \/ truthy (field fields (listed_key c) JNone) = false
     \/ (listed_key c = "Station"
         /\ isinstance_list (field fields "Station" JNone) = false)) ->
    snd (run upper key token net c sent) = Ret (nothing_found upper c).
Proof.
  intros upper key token net c sent fields Hrail Hkey Hnet Herror Hnothing.
  destruct c; try discriminate Hrail;
    cbn [run first_request listed_key nothing_found] in Hnet, Hnothing |- *.
  - unfold station_name_to_code. rail_answer Hkey Hnet. rewrite Herror.
    unfold found. cbn [py_get obind].
    destruct (eq_int (field fields "ResponseCode" JNone) 200); [|reflexivity].
    cbn [obind].
    destruct (truthy (field fields "Station" JNone)) eqn:Htruthy; cbn [obind];
      [|reflexivity].
    destruct Hnothing as [H|[H|[_ H]]]; try discriminate H.
    unfold field in H, Htruthy.
    destruct (lookup "Station" fields) as [stations|]; [|discriminate Htruthy].
    cbn [obind]. now rewrite H.
  - unfold get_train_schedule_indian_rail. rail_answer Hkey Hnet. rewrite Herror.
    unfold found. cbn [py_get obind].
    destruct (eq_int (field fields "ResponseCode" JNone) 200); [|reflexivity].
    cbn [obind].
    destruct (truthy (field fields "Route" JNone)) eqn:Htruthy; cbn [obind];
      [|reflexivity].
    destruct Hnothing as [H|[H|[H _]]]; discriminate H.
  - unfold get_all_trains_on_station. rail_answer Hkey Hnet. rewrite Herror.
    unfold found. cbn [py_get obind].
    destruct (eq_int (field fields "ResponseCode" JNone) 200); [|reflexivity].
    cbn [obind].
    destruct (truthy (field fields "Trains" JNone)) eqn:Htruthy; cbn [obind];
      [|reflexivity].
    destruct Hnothing as [H|[H|[H _]]]; discriminate H.
Qed.

Lemma rail_answers_that_list_nothing_witness :
  snd (run ascii_upper (Some "k3y") None
         (answered (inr (JDict [("ResponseCode", JStr "200");
                                ("Station", JList [JDict [("StationCode", JStr "NDLS")]])])))
         (StationNameToCode "delhi") [])
  = Ret "No stations found for 'DELHI'".
Proof.
  apply (rail_answers_that_list_nothing ascii_upper (Some "k3y") None _
           (StationNameToCode "delhi") []
           [("ResponseCode", JStr "200");
            ("Station", JList [JDict [("StationCode", JStr "NDLS")]])]);
    try reflexivity.
  left. reflexivity.
Defined.

(** X10: an ["error"] key decides the answer of a rail tool.  Whatever
    else the object holds, the tool returns its error prefix followed by
    the text of the value under ["error"]. *)
Theorem error_key_decides_a_rail_answer :
  forall upper key token net c sent fields error,
    is_rail c = true ->
    is_set key = true ->
    net sent (first_request upper key token c) = inr (JDict fields) ->
    lookup "error" fields = Some error ->
    snd (run upper key token net c sent) = Ret (error_prefix c ++ py_str error).
Proof.
  intros upper key token net c sent fields error Hrail Hkey Hnet Herror.
  destruct c; try discriminate Hrail; cbn [run first_request error_prefix] in Hnet |- *.
  - unfold station_name_to_code. rail_answer Hkey Hnet. now rewrite Herror.
  - unfold get_train_schedule_indian_rail. rail_answer Hkey Hnet. now rewrite Herror.
  - unfold get_all_trains_on_station. rail_answer Hkey Hnet. now rewrite Herror.
Qed.

Lemma error_key_decides_a_rail_answer_witness :
  snd (run ascii_upper (Some "k3y") None
         (answered (inr (JDict [("ResponseCode", JInt 200); ("error", JInt 42);
                                ("Trains", JList [JDict [("TrainName", JStr "Rajdhani")]])])))
         (GetAllTrainsOnStation "ndls") [])
  = Ret "Error fetching trains for station: 42".
Proof.
  exact (error_key_decides_a_rail_answer ascii_upper (Some "k3y") None _
           (GetAllTrainsOnStation "ndls") []
           [("ResponseCode", JInt 200); ("error", JInt 42);
            ("Trains", JList [JDict [("TrainName", JStr "Rajdhani")]])]
           (JInt 42) eq_refl eq_refl eq_refl eq_refl).
Defined.

(** X11: a route that is not a list is left out.  With the response code
    200 and a non-empty value under ["Route"] that is not a list,
    [get_train_schedule_indian_rail] returns the three heading lines only,
    without a schedule and without an error. *)
Theorem route_that_is_not_a_list :
  forall upper key net train_number sent fields,
    is_set key = true ->
    net sent (first_request upper key None (GetTrainSchedule train_number)) = inr (JDict fields) ->
    lookup "error" fields = None ->
    eq_int (field fields "ResponseCode" JNone) 200 = true ->
    truthy (field fields "Route" JNone) = true ->
    isinstance_list (field fields "Route" JNone) = false ->
    snd (get_train_schedule_indian_rail key net train_number sent)
    = train_heading train_number (JDict fields).
Proof.
  intros upper key net train_number sent fields Hkey Hnet Herror Hcode Htruthy Hlist.
  cbn [first_request] in Hnet.
  unfold get_train_schedule_indian_rail. rail_answer Hkey Hnet. rewrite Herror.
  unfold found. cbn [py_get obind]. rewrite Hcode. cbn [obind]. rewrite Htruthy.
  rewrite train_heading_dict. cbn [obind].
  unfold field in Hlist, Htruthy.
  destruct (lookup "Route" fields) as [route|]; [|discriminate Htruthy].
  cbn [obind]. now rewrite Hlist.
Qed.

Lemma route_that_is_not_a_list_witness :
  snd (get_train_schedule_indian_rail (Some "k3y")
         (answered (inr (JDict [("ResponseCode", JInt 200); ("TrainName", JStr "Rajdhani");
                                ("Route", JStr "see timetable")])))
         "12301" [])
  = Ret ("Train 12301 Schedule:" ++ nl ++ "Train Name: Rajdhani" ++ nl
           ++ "Train Number: N/A" ++ nl ++ nl).
Proof.
  exact (route_that_is_not_a_list ascii_upper (Some "k3y") _ "12301" []
           [("ResponseCode", JInt 200); ("TrainName", JStr "Rajdhani");
            ("Route", JStr "see timetable")]
           eq_refl eq_refl eq_refl eq_refl eq_refl eq_refl).
Defined.

(* ================================================================= *)
(** ** Null values and malformed items *)

Lemma value_at_found path p record v :
  found_at path record = Some v -> value_at path p record = Ret v.
Proof.
  revert record. induction path as [|k rest IH]; intros record Hfound.
  - inversion Hfound. reflexivity.
  - destruct record as [| | | | | |fields]; try discriminate Hfound.
    cbn [found_at] in Hfound.
    destruct (lookup k fields) as [inner|] eqn:Hk; [|discriminate Hfound].
    destruct rest as [|k' rest]; cbn [value_at py_get obind];
      rewrite (field_some _ _ _ _ Hk).
    + now inversion Hfound.
    + now apply IH.
Qed.

(** X12: the placeholders stand in for absent fields only.  A field that
    a renderer prints and that is present with the value [null] is printed
    as the text [None]: the text is the layout before the field, then
    [None], then the layout after the field.  So a repository whose
    description is [null] reads [Description: None], not
    [Description: No description]. *)
Theorem null_fields_are_printed_as_none :
  (forall r record before path p after,
      template r = (before ++ Field path p :: after)%list ->
      found_at path record = Some JNone ->
      text_of (render r record)
      = text_of (let! a := fill record before in
                 let! b := fill record after in
                 Ret (a ++ "None" ++ b)))
  /\ (forall name,
         repo_info (JDict [("name", JStr name); ("description", JNone)])
         = Ret (nl ++ "Name: " ++ name ++ nl ++ "Description: None" ++ nl
                   ++ "Language: N/A" ++ nl ++ "Stars: 0" ++ nl ++ "Forks: 0" ++ nl
                   ++ "Updated: N/A" ++ nl ++ "URL: N/A" ++ nl)).
Proof.
  split; [|reflexivity].
  intros r record before path p after Htemplate Hnull.
  rewrite render_layout, Htemplate, fill_app. cbn [seg_text].
  rewrite (value_at_found _ _ _ _ Hnull).
  now destruct (fill record before).
Qed.

Lemma null_fields_are_printed_as_none_witness :
  text_of (repo_info (JDict [("name", JStr "hello"); ("description", JNone)]))
  = Some ((nl ++ "Name: hello" ++ nl ++ "Description: ")
            ++ "None"
            ++ (nl ++ "Language: N/A" ++ nl ++ "Stars: 0" ++ nl ++ "Forks: 0" ++ nl
                  ++ "Updated: N/A" ++ nl ++ "URL: N/A" ++ nl)).
Proof.
  exact (proj1 null_fields_are_printed_as_none Repo
           (JDict [("name", JStr "hello"); ("description", JNone)])
           (Lit nl :: line "Name: " ["name"] (JStr "N/A") ++ [Lit "Description: "])%list
           ["description"] (JStr "No description")
           (Lit nl :: line "Language: " ["language"] (JStr "N/A")
              ++ line "Stars: " ["stargazers_count"] (JInt 0)
              ++ line "Forks: " ["forks_count"] (JInt 0)
              ++ line "Updated: " ["updated_at"] (JStr "N/A")
              ++ line "URL: " ["html_url"] (JStr "N/A"))%list
           eq_refl eq_refl).
Defined.

(** X13: a repository whose ["license"] is [null], or any other empty
    value, reads [License: N/A].  Its text is the layout before the line of
    the licence, then [License: N/A], then the layout after the licence,
    and it is returned for every such object. *)
Theorem null_license_is_not_available :
  forall fields license,
    lookup "license" fields = Some license ->
    truthy license = false ->
    exists before after,
      fill (JDict fields) repository_head = Ret before
      /\ fill (JDict fields) repository_tail = Ret after
      /\ repository_info (JDict fields) = Ret (before ++ "License: N/A" ++ after).
Proof.
  intros fields license Hlicense Hfalsy.
  eexists. eexists. split; [|split].
  - cbn [fill seg_text value_at py_get obind repository_head line app]. reflexivity.
  - cbn [fill seg_text value_at py_get obind repository_tail line app]. reflexivity.
  - unfold repository_info. cbn [py_get obind]. use_lookups. rewrite Hfalsy.
    cbn [obind py_str]. rewrite ?append_assoc. reflexivity.
Qed.

Lemma null_license_is_not_available_witness :
  repository_info (JDict [("full_name", JStr "octocat/hello"); ("license", JNone)])
  = Ret (nl ++ "Repository: octocat/hello" ++ nl ++ "Description: No description" ++ nl
            ++ "Language: N/A" ++ nl ++ "Stars: 0" ++ nl ++ "Forks: 0" ++ nl
            ++ "Watchers: 0" ++ nl ++ "Open Issues: 0" ++ nl ++ "Size: 0 KB" ++ nl
            ++ "Default Branch: N/A" ++ nl ++ "Created: N/A" ++ nl ++ "Updated: N/A" ++ nl
            ++ "License: N/A" ++ nl ++ "URL: N/A" ++ nl ++ "Clone URL: N/A" ++ nl).
Proof.
  destruct (null_license_is_not_available
              [("full_name", JStr "octocat/hello"); ("license", JNone)] JNone
              eq_refl eq_refl) as (before & after & Hbefore & Hafter & Htext).
  rewrite Htext. injection Hbefore as <-. injection Hafter as <-. reflexivity.
Defined.

Lemma for_each_first_fault {A B : Type} (body : A -> outcome B) good bad rest ys e :
  for_each body good = Ret ys ->
  body bad = Raise e ->
  for_each body (good ++ bad :: rest)%list = Raise e.
Proof.
  revert ys. induction good as [|x good IH]; intros ys Hgood Hbad; cbn [app for_each].
  - now rewrite Hbad.
  - cbn [for_each] in Hgood.
    destruct (body x) as [y|e']; cbn [obind] in Hgood |- *; [|discriminate Hgood].
    destruct (for_each body good) as [ys'|e'] eqn:E; cbn [obind] in Hgood; [|discriminate Hgood].
    now rewrite (IH ys' eq_refl Hbad).
Qed.

(** X14: one item that cannot be rendered fails the whole list.  When the
    items before it render and it raises, the list tool ends with that
    exception: no text is returned for the items that did render. *)
Theorem one_bad_item_fails_the_list :
  forall token net t (limit : Z) sent data good bad rest entries e,
    net sent (github_get token (list_url t limit)) = inr data ->
    returned t data (good ++ bad :: rest)%list ->
    for_each (entry t) good = Ret entries ->
    entry t bad = Raise e ->
    snd (run_list_tool token net t limit sent) = Raise e.
Proof.
  intros token net t limit sent data good bad rest entries e Hnet Hdata Hgood Hbad.
  rewrite (run_list_tool_on_items _ _ _ _ _ _ _ Hnet Hdata).
  assert (H : (let! entries := for_each (entry t) (good ++ bad :: rest)%list in
               Ret (join separator entries)) = Raise e)
    by now rewrite (for_each_first_fault _ _ _ _ _ _ Hgood Hbad).
  destruct t; destruct good; exact H.
Qed.

Lemma one_bad_item_fails_the_list_witness :
  snd (run_list_tool None
         (answered (inr (JList [JDict [("number", JInt 1)];
                                JDict [("number", JInt 2); ("user", JNone)]])))
         (Issues "octocat" "hello" "open") 10 [])
  = Raise AttributeError.
Proof.
  exact (one_bad_item_fails_the_list None _ (Issues "octocat" "hello" "open") 10 []
           (JList [JDict [("number", JInt 1)];
                   JDict [("number", JInt 2); ("user", JNone)]])
           [JDict [("number", JInt 1)]]
           (JDict [("number", JInt 2); ("user", JNone)]) [] _ AttributeError
           eq_refl eq_refl eq_refl eq_refl).
Defined.

(** X15: nested objects and sliced fields are not guarded against
    [null].  An issue whose ["user"] is [null] raises [AttributeError] (its
    labels being well formed), as does a commit whose ["commit"] is [null];
    a commit whose ["sha"] is [null] raises [TypeError]. *)
Theorem null_objects_raise :
  (forall fields,
      lookup "user" fields = Some JNone ->
      absent_or (list_of label_shaped) (lookup "labels" fields) = true ->
      issue_info (JDict fields) = Raise AttributeError)
  /\ (forall fields,
         lookup "sha" fields = Some JNone ->
         commit_info (JDict fields) = Raise TypeError)
  /\ (forall fields sha,
         lookup "sha" fields = Some (JStr sha) ->
         lookup "commit" fields = Some JNone ->
         commit_info (JDict fields) = Raise AttributeError).
Proof.
  repeat split.
  - intros fields Huser Hlabels. unfold issue_info. cbn [py_get obind].
    destruct (lookup "labels" fields) as [labels|] eqn:El; use_lookups;
      cbn [absent_or] in Hlabels.
    + destruct labels; try discriminate Hlabels. cbn [list_of] in Hlabels.
      destruct (label_names_total _ Hlabels) as [names Hnames].
      cbn [py_iter obind].
      destruct (for_each _ items) as [found|]; [|discriminate Hnames].
      cbn [obind] in Hnames |- *. rewrite Hnames. reflexivity.
    + reflexivity.
  - intros fields Hsha. unfold commit_info. cbn [py_get obind]. use_lookups. reflexivity.
  - intros fields sha Hsha Hcommit. unfold commit_info. cbn [py_get obind]. use_lookups.
    reflexivity.
Qed.

Lemma null_objects_raise_witness :
  issue_info (JDict [("number", JInt 2); ("user", JNone)]) = Raise AttributeError
  /\ commit_info (JDict [("sha", JNone)]) = Raise TypeError.
Proof.
  split.
  - exact (proj1 null_objects_raise [("number", JInt 2); ("user", JNone)] eq_refl eq_refl).
  - exact (proj1 (proj2 null_objects_raise) [("sha", JNone)] eq_refl).
Defined.

(* ================================================================= *)
(** ** What the entries show *)

Lemma take_at_most n s : (String.length (take n s) <= n)%nat.
Proof.
  revert n. induction s as [|c s IH]; intros [|n]; cbn [take String.length]; try lia.
  specialize (IH n). lia.
Qed.

(** X16: a commit is listed under the first 8 characters of its SHA: a
    SHA of at most 8 characters is shown whole, a longer one is cut, and no
    mark is added. *)
Theorem commit_sha_is_cut_to_eight :
  forall fields sha text,
    lookup "sha" fields = Some (JStr sha) ->
    commit_info (JDict fields) = Ret text ->
    (exists rest, text = nl ++ "SHA: " ++ take 8 sha ++ nl ++ rest)
    /\ (String.length (take 8 sha) <= 8)%nat
    /\ ((String.length sha <= 8)%nat -> take 8 sha = sha).
Proof.
  intros fields sha text Hsha Hinfo. split; [|split].
  - unfold commit_info in Hinfo. cbn [py_get obind] in Hinfo.
    revert Hinfo. use_lookups. cbn [py_slice obind]. intros Hinfo.
    repeat (apply obind_Ret in Hinfo; destruct Hinfo as (? & _ & Hinfo)).
    inversion Hinfo. eexists. reflexivity.
  - apply take_at_most.
  - apply take_all.
Qed.

Lemma commit_sha_is_cut_to_eight_witness :
  exists rest,
    nl ++ "SHA: 01234567" ++ nl ++ "Message: No message" ++ nl
       ++ "Author: N/A" ++ nl ++ "Date: N/A" ++ nl ++ "URL: N/A" ++ nl
    = nl ++ "SHA: " ++ take 8 "0123456789abcdef" ++ nl ++ rest.
Proof.
  exact (proj1 (commit_sha_is_cut_to_eight [("sha", JStr "0123456789abcdef")]
                  "0123456789abcdef" _ eq_refl eq_refl)).
Defined.

Lemma py_join_strs sep names : py_join sep (map JStr names) = Ret (join sep names).
Proof.
  unfold py_join.
  assert (H : for_each (fun v => match v with JStr s => Ret s | _ => Raise TypeError end)
                (map JStr names) = Ret names).
  { induction names as [|n names IH]; cbn [map for_each obind]; [reflexivity|].
    now rewrite IH. }
  now rewrite H.
Qed.

(** X17: the labels of an issue are shown by their names, in order,
    joined by a comma and a space; when the joined text is empty (no label,
    or one label with an empty name) the line reads [None]. *)
Theorem issue_labels_are_joined :
  forall fields labels names text,
    lookup "labels" fields = Some (JList labels) ->
    for_each (fun label => py_getitem label "name") labels = Ret (map JStr names) ->
    issue_info (JDict fields) = Ret text ->
    exists login,
      py_get (field fields "user" (JDict [])) "login" (JStr "N/A") = Ret login
      /\ text = nl ++ "#" ++ py_str (field fields "number" (JStr "N/A")) ++ ": "
                   ++ py_str (field fields "title" (JStr "No title")) ++ nl
                   ++ "State: " ++ py_str (field fields "state" (JStr "N/A")) ++ nl
                   ++ "Author: " ++ py_str login ++ nl
                   ++ "Labels: "
                   ++ (if String.eqb (join ", " names) EmptyString
                       then "None" else join ", " names) ++ nl
                   ++ "Created: " ++ py_str (field fields "created_at" (JStr "N/A")) ++ nl
                   ++ "URL: " ++ py_str (field fields "html_url" (JStr "N/A")) ++ nl.
Proof.
  intros fields labels names text Hlabels Hnames. unfold issue_info.
  cbn [py_get obind]. use_lookups. cbn [py_iter obind]. rewrite Hnames. cbn [obind].
  rewrite py_join_strs. cbn [obind].
  destruct (py_get (field fields "user" (JDict [])) "login" (JStr "N/A")) as [login|e];
    cbn [obind]; intros H; [|discriminate H].
  exists login. split; [reflexivity|].
  inversion H. now destruct (String.eqb (join ", " names) EmptyString).
Qed.

Lemma issue_labels_are_joined_witness :
  exists login,
    py_get (JDict []) "login" (JStr "N/A") = Ret login
    /\ nl ++ "#7: No title" ++ nl ++ "State: N/A" ++ nl ++ "Author: N/A" ++ nl
          ++ "Labels: bug, help wanted" ++ nl ++ "Created: N/A" ++ nl ++ "URL: N/A" ++ nl
       = nl ++ "#7: No title" ++ nl ++ "State: N/A" ++ nl
            ++ "Author: " ++ py_str login ++ nl
            ++ "Labels: bug, help wanted" ++ nl ++ "Created: N/A" ++ nl ++ "URL: N/A" ++ nl.
Proof.
  exact (issue_labels_are_joined
           [("number", JInt 7);
            ("labels", JList [JDict [("name", JStr "bug")];
                              JDict [("name", JStr "help wanted")]])]
           [JDict [("name", JStr "bug")]; JDict [("name", JStr "help wanted")]]
           ["bug"; "help wanted"] _ eq_refl eq_refl eq_refl).
Defined.

(** X18: [get_alerts] applies no cut.  For a non-empty list of features
    its outcome is the rendering of every feature, in order, joined by the
    separator line. *)
Theorem every_alert_is_rendered :
  forall net state sent fields features,
    net sent (nws_get (NWS_API_BASE ++ "/alerts/active/area/" ++ state))
    = inr (JDict fields) ->
    lookup "features" fields = Some (JList features) ->
    features <> [] ->
    snd (get_alerts net state sent)
    = (let! alerts := for_each format_alert features in Ret (join separator alerts)).
Proof.
  intros net state sent fields features Hnet Hfeatures Hsome.
  unfold get_alerts, missing. run_nws. rewrite Hnet, snd_lift.
  destruct fields as [|kv rest]; [discriminate Hfeatures|].
  cbn [body_or_none truthy negb py_contains obind py_getitem]. rewrite Hfeatures.
  cbn [negb obind]. destruct features; [contradiction|reflexivity].
Qed.

Lemma every_alert_is_rendered_witness :
  snd (get_alerts
         (answered (inr (JDict [("features",
                                 JList (List.repeat (JDict [("properties", JDict [])]) 7))])))
         "CA" [])
  = (let! alerts := for_each format_alert (List.repeat (JDict [("properties", JDict [])]) 7) in
     Ret (join separator alerts)).
Proof.
  apply (every_alert_is_rendered _ "CA" []
           [("features", JList (List.repeat (JDict [("properties", JDict [])]) 7))]);
    [reflexivity|reflexivity|discriminate].
Defined.
